(** * Backend selection of upm: [internal/backends/backends.go]

    A shallow embedding of [matchesLanguage] and [GetBackend], and the
    properties of backend selection proved about them.

    Go strings are byte strings: they are [string] here, one [ascii] per
    byte.  The map [bParts] of [matchesLanguage] is a [gmap string bool].
    The two filesystem probes of package [util] are read from an explicit
    filesystem snapshot, and every probe that is made is logged, so that
    "no probe was made" is a statement about the log. *)

From Stdlib Require Import Ascii String List Bool Arith Lia.
From stdpp Require Import base option list strings gmap.
Import ListNotations.

Local Open Scope string_scope.
Local Open Scope list_scope.

(** ** Go's [strings.Split], for a separator of one byte *)

Module GoStrings.

(** [Split s sep] cuts [s] around every occurrence of the byte [sep].
    As in Go the result is never empty: a string without separator, the
    empty string included, comes back as its only part. *)
Fixpoint Split (s : string) (sep : ascii) : list string :=
  match s with
  | EmptyString => [EmptyString]
  | String c s' =>
      if Ascii.eqb c sep then EmptyString :: Split s' sep
      else match Split s' sep with
           | part :: parts => String c part :: parts
           | [] => [String c EmptyString]
           end
  end.

End GoStrings.

Definition hyphen : ascii := "-"%char.

(** ** [api.LanguageBackend] *)

(** Modelled from the spec: the struct [api.LanguageBackend] is declared in
    package [api]; these are the fields that [backends.go] reads, with the
    types their uses require.  The function-valued fields of the struct take
    no part in the selection. *)
Record LanguageBackend : Type := mkBackend {
  Name : string;
  Alias : string;
  Specfile : string;
  Lockfile : string;
  FilenamePatterns : list string
}.

#[global] Instance LanguageBackend_eq_dec : EqDecision LanguageBackend.
Proof. solve_decision. Defined.

(** ** [matchesLanguage] *)

(** [bParts[k]] of a Go [map[string]bool]: an absent key reads [false]. *)
Definition map_index (bParts : gmap string bool) (k : string) : bool :=
  default false (bParts !! k).

(** [for _, bPart := range parts { bParts[bPart] = true }] *)
Definition fill_parts (bParts : gmap string bool) (parts : list string)
  : gmap string bool :=
  foldl (fun m bPart => <[bPart := true]> m) bParts parts.

(** [for _, lPart := range parts { if !bParts[lPart] { ...; break } }]:
    [true] when the loop body fires. *)
Fixpoint some_part_missing (bParts : gmap string bool) (lParts : list string)
  : bool :=
  match lParts with
  | [] => false
  | lPart :: rest =>
      if negb (map_index bParts lPart) then true
      else some_part_missing bParts rest
  end.

Definition matchesLanguage (b : LanguageBackend) (language : string) : bool :=
  let bParts := fill_parts ∅ (GoStrings.Split (Name b) hyphen) in
  let checkAlias := some_part_missing bParts (GoStrings.Split language hyphen) in
  if checkAlias then
    let bParts := fill_parts ∅ (GoStrings.Split (Alias b) hyphen) in
    if some_part_missing bParts (GoStrings.Split language hyphen) then false
    else true
  else true.

(** ** The filesystem probes of package [util], and [util.Die] *)

(** One call of a probe, as it is logged. *)
Inductive probe : Type :=
| ProbeExists (path : string)
| ProbePatternExists (pattern : string).

(** A filesystem snapshot fixes the answer of every probe. *)
Record Filesystem : Type := mkFilesystem {
  fs_exists : string -> bool;
  fs_pattern_exists : string -> bool
}.

(** A computation that reads the snapshot and logs the probes it makes, in
    the order it makes them. *)
Definition Probing (A : Type) : Type := Filesystem -> A * list probe.

Definition ret {A : Type} (a : A) : Probing A := fun _ => (a, []).

Definition bind {A B : Type} (m : Probing A) (k : A -> Probing B) : Probing B :=
  fun fs =>
    let (a, log1) := m fs in
    let (b, log2) := k a fs in
    (b, log1 ++ log2).

Notation "'let*' x ':=' m 'in' k" := (bind m (fun x => k))
  (at level 10, x name, m at level 100, k at level 200).

Definition value {A : Type} (m : Probing A) (fs : Filesystem) : A := fst (m fs).
Definition probes {A : Type} (m : Probing A) (fs : Filesystem) : list probe :=
  snd (m fs).

(** How a call of [GetBackend] ends: it returns a backend, or [util.Die]
    ends the process with a message, or indexing a slice out of range
    panics. *)
Inductive outcome : Type :=
| Returned (b : LanguageBackend)
| Died (message : string)
| IndexOutOfRange.

Module fmt.

(** Go's [fmt.Sprintf], for the verb [%s] with string operands: each [%s]
    is replaced by the next operand; every other byte is copied. *)
Fixpoint Sprintf (format : string) (args : list string) : string :=
  match format with
  | EmptyString => EmptyString
  | String "%" (String "s" rest) =>
      match args with
      | a :: args' => a +:+ Sprintf rest args'
      | [] => "%!s(MISSING)" +:+ Sprintf rest []
      end
  | String c rest => String c (Sprintf rest args)
  end.

End fmt.

Module util.

(** Modelled from the spec: [util.Exists] and [util.PatternExists] are
    declared in package [util]; they are the existence and the glob probe
    of the project directory, and a probe that fails answers "does not
    exist". *)
Definition Exists (path : string) : Probing bool :=
  fun fs => (fs_exists fs path, [ProbeExists path]).

Definition PatternExists (pattern : string) : Probing bool :=
  fun fs => (fs_pattern_exists fs pattern, [ProbePatternExists pattern]).

(** Modelled from the spec: [util.Die] is declared in package [util]; it
    ends the process with the message that [format] and [args] make. *)
Definition Die (format : string) (args : list string) : outcome :=
  Died (fmt.Sprintf format args).

End util.

(** ** [GetBackend] *)

(** [for _, b := range backends { if cond(b) { return b } }]: the backend
    the loop returns, or [None] when the loop runs to its end. *)
Fixpoint first_where (cond : LanguageBackend -> Probing bool)
    (backends : list LanguageBackend) : Probing (option LanguageBackend) :=
  match backends with
  | [] => ret None
  | b :: rest =>
      let* hit := cond b in
      if hit then ret (Some b) else first_where cond rest
  end.

(** [util.Exists(b.Specfile) && util.Exists(b.Lockfile)]; the right
    operand is evaluated only when the left one is true. *)
Definition spec_and_lock (b : LanguageBackend) : Probing bool :=
  let* s := util.Exists (Specfile b) in
  if s then util.Exists (Lockfile b) else ret false.

(** [util.Exists(b.Specfile) || util.Exists(b.Lockfile)] *)
Definition spec_or_lock (b : LanguageBackend) : Probing bool :=
  let* s := util.Exists (Specfile b) in
  if s then ret true else util.Exists (Lockfile b).

(** [for _, p := range patterns { if util.PatternExists(p) { return b } }] *)
Fixpoint some_pattern (patterns : list string) : Probing bool :=
  match patterns with
  | [] => ret false
  | p :: rest =>
      let* hit := util.PatternExists p in
      if hit then ret true else some_pattern rest
  end.

Definition pattern_hit (b : LanguageBackend) : Probing bool :=
  some_pattern (FilenamePatterns b).

(** The loop of lines 86 to 90, which appends the matching backends. *)
Definition filter_backends (backends : list LanguageBackend) (language : string)
  : list LanguageBackend :=
  foldl (fun filteredBackends b =>
           if matchesLanguage b language then filteredBackends ++ [b]
           else filteredBackends)
        [] backends.

(** Lines 101 to 123: the three loops and what follows them, over the
    value that [backends] has at line 101. *)
Definition autodetect (backends : list LanguageBackend) (language : string)
  : Probing outcome :=
  let* a := first_where spec_and_lock backends in
  match a with
  | Some b => ret (Returned b)
  | None =>
      let* o := first_where spec_or_lock backends in
      match o with
      | Some b => ret (Returned b)
      | None =>
          let* p := first_where pattern_hit backends in
          match p with
          | Some b => ret (Returned b)
          | None =>
              if String.eqb language "" then
                ret (util.Die "could not autodetect a language for your project" [])
              else
                match backends with
                | b :: _ => ret (Returned b)
                | [] => ret IndexOutOfRange
                end
          end
      end
  end.

(** [GetBackend], with the registry [languageBackends], a package variable
    in the source, as an argument.  The tracing span that the function opens
    and closes takes no part in the selection and is left out. *)
Definition GetBackend (languageBackends : list LanguageBackend)
    (language : string) : Probing outcome :=
  let backends := languageBackends in
  if negb (String.eqb language "") then
    let filteredBackends := filter_backends backends language in
    match filteredBackends with
    | [] => ret (util.Die "no such language: %s" [language])
    | [b] => ret (Returned b)
    | _ => autodetect filteredBackends language
    end
  else autodetect backends language.

(** The two fatal errors of the selection. *)
Definition UnknownLanguage (hint : string) : outcome :=
  Died ("no such language: " +:+ hint).
Definition NoLanguageDetected : outcome :=
  Died "could not autodetect a language for your project".

(** ** [GetBackendNames] *)

Module BackendInfo.

(** [type BackendInfo struct { Name string; Available bool }] *)
Record t : Type := mk {
  Name : string;
  Available : bool
}.

End BackendInfo.

(** [GetBackendNames], with the registry as an argument.  The slice
    [backendNames] starts as nil and grows by one entry for each backend.

    Modelled from the spec: [IsAvailable] is declared with
    [api.LanguageBackend]; it is the availability check of a backend, which
    reports whether the tool of the backend is usable on the host. *)
Definition GetBackendNames (IsAvailable : LanguageBackend -> bool)
    (languageBackends : list LanguageBackend) : list BackendInfo.t :=
  foldl (fun backendNames b =>
           backendNames ++ [BackendInfo.mk (Name b) (IsAvailable b)])
        [] languageBackends.

(** ** [SetupAll] *)

(** How [SetupAll] ends: the registry after every backend was set up, or the
    panic of [Setup] on the backend at an index, or an index out of range. *)
Inductive setup_outcome : Type :=
| SetUp (languageBackends : list LanguageBackend)
| SetupPanicked (i : nat)
| SetupIndexOutOfRange (i : nat).

(** [for i := range languageBackends { (&languageBackends[i]).Setup() }],
    from index [i] on, with [todo] indexes left: [Setup] updates the element
    at [i] in place.

    Modelled from the spec: [Setup] is declared with [api.LanguageBackend];
    it fills the defaults of a backend, or panics ([None]) when the backend
    lacks a mandatory field. *)
Fixpoint SetupAll_from (Setup : LanguageBackend -> option LanguageBackend)
    (todo i : nat) (languageBackends : list LanguageBackend) : setup_outcome :=
  match todo with
  | 0 => SetUp languageBackends
  | S todo' =>
      match languageBackends !! i with
      | None => SetupIndexOutOfRange i
      | Some b =>
          match Setup b with
          | None => SetupPanicked i
          | Some b' =>
              SetupAll_from Setup todo' (S i) (<[i := b']> languageBackends)
          end
      end
  end.

Definition SetupAll (Setup : LanguageBackend -> option LanguageBackend)
    (languageBackends : list LanguageBackend) : setup_outcome :=
  SetupAll_from Setup (length languageBackends) 0 languageBackends.

(** ** The words of the specification *)

Section SpecWords.

(** Every hyphen-separated part of [token] is one of the hyphen-separated
    parts of [s]. *)
Definition parts_within (token s : string) : Prop :=
  forall part, part ∈ GoStrings.Split token hyphen ->
               part ∈ GoStrings.Split s hyphen.

(** The message [message] includes the text [hint]. *)
Definition includes (message hint : string) : Prop :=
  exists before after, message = before +:+ hint +:+ after.

Variable fs : Filesystem.

(** Strong evidence: specfile and lockfile both exist. *)
Definition both_exist (b : LanguageBackend) : bool :=
  fs_exists fs (Specfile b) && fs_exists fs (Lockfile b).

(** Partial evidence: specfile or lockfile exists. *)
Definition either_exists (b : LanguageBackend) : bool :=
  fs_exists fs (Specfile b) || fs_exists fs (Lockfile b).

(** Weak evidence: some pattern of the backend matches an existing file. *)
Definition pattern_found (b : LanguageBackend) : bool :=
  existsb (fs_pattern_exists fs) (FilenamePatterns b).

(** No specfile, no lockfile and no pattern hit. *)
Definition no_evidence (b : LanguageBackend) : Prop :=
  fs_exists fs (Specfile b) = false /\
  fs_exists fs (Lockfile b) = false /\
  pattern_found b = false.

(** Only a pattern hit. *)
Definition only_pattern_hit (b : LanguageBackend) : Prop :=
  fs_exists fs (Specfile b) = false /\
  fs_exists fs (Lockfile b) = false /\
  pattern_found b = true.

(** The three passes over a working list: the first backend with strong
    evidence, else the first with partial evidence, else the first with
    weak evidence. *)
Definition three_passes (working : list LanguageBackend)
  : option LanguageBackend :=
  match List.find both_exist working with
  | Some b => Some b
  | None =>
      match List.find either_exists working with
      | Some b => Some b
      | None => List.find pattern_found working
      end
  end.

End SpecWords.

(** The backends of the registry that the hint matches, in registry order. *)
Definition matching (registry : list LanguageBackend) (hint : string)
  : list LanguageBackend :=
  List.filter (fun b => matchesLanguage b hint) registry.

(** The list that autodetection scans: the registry for the empty hint, the
    matching backends when the hint matches more than one; otherwise there
    is no autodetection. *)
Definition working_list (registry : list LanguageBackend) (hint : string)
  : option (list LanguageBackend) :=
  if String.eqb hint "" then Some registry
  else match matching registry hint with
       | b1 :: b2 :: more => Some (b1 :: b2 :: more)
       | _ => None
       end.

(** What is left when no pass finds a backend. *)
Definition fallback (working : list LanguageBackend) (hint : string) : outcome :=
  if String.eqb hint "" then NoLanguageDetected
  else match working with
       | b :: _ => Returned b
       | [] => IndexOutOfRange
       end.

(** A computation runs alike in two snapshots: same value, same probes. *)
Definition same_run_in {A : Type} (fs1 fs2 : Filesystem) (m : Probing A) : Prop :=
  m fs1 = m fs2.

(** The answer of a snapshot to a probe. *)
Definition answer (fs : Filesystem) (pr : probe) : bool :=
  match pr with
  | ProbeExists path => fs_exists fs path
  | ProbePatternExists pattern => fs_pattern_exists fs pattern
  end.

(** A computation takes from the filesystem nothing but the answers to its
    probes: it runs alike in a second snapshot that answers as the first one
    does on the probes of the run in the first. *)
Definition replays {A : Type} (fs1 fs2 : Filesystem) (m : Probing A) : Prop :=
  (forall pr, pr ∈ probes m fs1 -> answer fs1 pr = answer fs2 pr) ->
  m fs1 = m fs2.

(** A call that does not return a backend. *)
Definition fails (o : outcome) : Prop :=
  match o with
  | Returned _ => False
  | Died _ | IndexOutOfRange => True
  end.

(** ** Measures of strings, probes and registries *)

(** The number of bytes of [s] that are the separator. *)
Fixpoint count_sep (s : string) (sep : ascii) : nat :=
  match s with
  | EmptyString => 0
  | String c s' => (if Ascii.eqb c sep then 1 else 0) + count_sep s' sep
  end.

(** The parts put together again, with the separator between them. *)
Fixpoint join_parts (parts : list string) (sep : ascii) : string :=
  match parts with
  | [] => EmptyString
  | [part] => part
  | part :: more => part +:+ String sep (join_parts more sep)
  end.

(** How strong the evidence for a backend is: 3 with specfile and lockfile,
    2 with one of them, 1 with a pattern hit only, 0 with nothing. *)
Definition evidence_rank (fs : Filesystem) (b : LanguageBackend) : nat :=
  if both_exist fs b then 3
  else if either_exists fs b then 2
  else if pattern_found fs b then 1
  else 0.

(** The backends among which a call chooses: all of the registry for the
    empty hint, else those that the hint matches. *)
Definition candidate (registry : list LanguageBackend) (hint : string)
    (b : LanguageBackend) : Prop :=
  b ∈ registry /\ (hint = "" \/ matchesLanguage b hint = true).

(** The calls of [util.Exists] and of [util.PatternExists] in a log. *)
Definition is_exists_probe (pr : probe) : bool :=
  match pr with ProbeExists _ => true | ProbePatternExists _ => false end.
Definition is_pattern_probe (pr : probe) : bool :=
  match pr with ProbeExists _ => false | ProbePatternExists _ => true end.
Definition exists_calls (log : list probe) : nat :=
  length (List.filter is_exists_probe log).
Definition pattern_calls (log : list probe) : nat :=
  length (List.filter is_pattern_probe log).

(** The probe asks for the specfile, the lockfile or a pattern of [b]. *)
Definition probe_of (b : LanguageBackend) (pr : probe) : Prop :=
  pr = ProbeExists (Specfile b) \/
  pr = ProbeExists (Lockfile b) \/
  exists pattern, pattern ∈ FilenamePatterns b /\ pr = ProbePatternExists pattern.

(** Three existence probes and one probe for each pattern, for each backend. *)
Definition probe_budget (backends : list LanguageBackend) : nat :=
  sum_list_with (fun b => 3 + length (FilenamePatterns b)) backends.

(** Two snapshots answer alike on the specfile, the lockfile and the
    patterns of [b]. *)
Definition agree_on (fs1 fs2 : Filesystem) (b : LanguageBackend) : Prop :=
  fs_exists fs1 (Specfile b) = fs_exists fs2 (Specfile b) /\
  fs_exists fs1 (Lockfile b) = fs_exists fs2 (Lockfile b) /\
  forall pattern, pattern ∈ FilenamePatterns b ->
    fs_pattern_exists fs1 pattern = fs_pattern_exists fs2 pattern.

(** ** Sample backends and project directories *)

(** Backends in the style of the registered ones, for the concrete cases. *)
Definition sample_poetry : LanguageBackend :=
  mkBackend "python3-poetry" "python-python3-poetry"
            "pyproject.toml" "poetry.lock" ["*.py"].
Definition sample_pip : LanguageBackend :=
  mkBackend "python3-pip" "python-python3-pip"
            "requirements.txt" "requirements.lock" ["*.py"].
Definition sample_npm : LanguageBackend :=
  mkBackend "nodejs-npm" "" "package.json" "package-lock.json" ["*.js"; "*.ts"].
Definition sample_yarn : LanguageBackend :=
  mkBackend "nodejs-yarn" "" "package.json" "yarn.lock" ["*.js"; "*.ts"].
Definition sample_bundler : LanguageBackend :=
  mkBackend "ruby-bundler" "" "Gemfile" "Gemfile.lock" ["*.rb"].
Definition sample_python : LanguageBackend :=
  mkBackend "python3" "" "setup.py" "setup.lock" [].

Definition sample_registry : list LanguageBackend :=
  [sample_poetry; sample_pip; sample_npm; sample_yarn; sample_bundler].

(** The project directory that holds exactly [files], and in which exactly
    the glob patterns [globs] have a match. *)
Definition directory (files globs : list string) : Filesystem :=
  mkFilesystem (fun path => existsb (String.eqb path) files)
               (fun pattern => existsb (String.eqb pattern) globs).

Definition empty_directory : Filesystem := directory [] [].

(** * Properties *)

(** ** The embedding at work *)

Example Split_three_parts :
  GoStrings.Split "python-python3-poetry" hyphen = ["python"; "python3"; "poetry"].
Proof. reflexivity. Qed.

Example Split_empty : GoStrings.Split "" hyphen = [""].
Proof. reflexivity. Qed.

Example Split_hyphens : GoStrings.Split "-a-" hyphen = [""; "a"; ""].
Proof. reflexivity. Qed.

Example matchesLanguage_through_alias :
  matchesLanguage sample_poetry "python-poetry" = true /\
  matchesLanguage sample_poetry "python3" = true /\
  matchesLanguage sample_poetry "python2" = false.
Proof. repeat split. Qed.

(** Pass A asks for the lockfile only when the specfile exists; pass B
    asks again. *)
Example GetBackend_probes_in_order :
  GetBackend [sample_bundler; sample_npm] "" (directory ["package.json"] [])
  = (Returned sample_npm,
     [ProbeExists "Gemfile"; ProbeExists "package.json";
      ProbeExists "package-lock.json";
      ProbeExists "Gemfile"; ProbeExists "Gemfile.lock";
      ProbeExists "package.json"]).
Proof. reflexivity. Qed.

Example GetBackend_pattern_pass :
  GetBackend [sample_bundler; sample_npm] "" (directory [] ["*.ts"])
  = (Returned sample_npm,
     [ProbeExists "Gemfile"; ProbeExists "package.json";
      ProbeExists "Gemfile"; ProbeExists "Gemfile.lock";
      ProbeExists "package.json"; ProbeExists "package-lock.json";
      ProbePatternExists "*.rb"; ProbePatternExists "*.js";
      ProbePatternExists "*.ts"]).
Proof. reflexivity. Qed.

Example GetBackend_nothing_found :
  value (GetBackend sample_registry "") empty_directory = NoLanguageDetected.
Proof. reflexivity. Qed.

Example GetBackend_unknown_hint :
  value (GetBackend sample_registry "cobol") empty_directory
  = UnknownLanguage "cobol".
Proof. reflexivity. Qed.

(** ** Strings and messages *)

Lemma string_app_empty_r (s : string) : s +:+ "" = s.
Proof.
  induction s as [|c s IH]; [reflexivity |].
  change (String c (s +:+ "") = String c s). by rewrite IH.
Qed.

Lemma Die_no_such_language (language : string) :
  util.Die "no such language: %s" [language] = UnknownLanguage language.
Proof.
  unfold util.Die, UnknownLanguage. simpl.
  by rewrite string_app_empty_r.
Qed.

Lemma Die_could_not_autodetect :
  util.Die "could not autodetect a language for your project" []
  = NoLanguageDetected.
Proof. reflexivity. Qed.

(** [Split] never returns the empty slice. *)
Lemma Split_nonempty (s : string) (sep : ascii) : GoStrings.Split s sep <> [].
Proof.
  destruct s as [|c s]; simpl; [discriminate |].
  destruct (Ascii.eqb c sep); [discriminate |].
  destruct (GoStrings.Split s sep); discriminate.
Qed.

(** No part that [Split] returns holds the separator. *)
Lemma Split_no_sep (s : string) (sep : ascii) :
  Forall (fun part => forall i, String.get i part <> Some sep)
         (GoStrings.Split s sep).
Proof.
  induction s as [|c s IH]; simpl.
  - constructor; [|constructor]. intros i. by destruct i.
  - destruct (Ascii.eqb_spec c sep) as [->|Hne].
    + constructor; [|exact IH]. intros i. by destruct i.
    + destruct (GoStrings.Split s sep) as [|part parts].
      * constructor; [|constructor].
        intros [|i]; simpl; [congruence | by destruct i].
      * inversion IH as [|? ? Hpart Hparts]; subst.
        constructor; [|exact Hparts].
        intros [|i]; simpl; [congruence | apply Hpart].
Qed.

(** A string without the separator is its own only part. *)
Lemma Split_without_sep (s : string) (sep : ascii) :
  (forall i, String.get i s <> Some sep) -> GoStrings.Split s sep = [s].
Proof.
  induction s as [|c s IH]; intros Hs; simpl; [reflexivity |].
  destruct (Ascii.eqb_spec c sep) as [->|Hne].
  - by specialize (Hs 0).
  - rewrite IH; [reflexivity |]. intros i. apply (Hs (S i)).
Qed.

(** ** The matcher *)

Lemma map_index_insert (m : gmap string bool) (k k' : string) :
  map_index (<[k := true]> m) k' = true <-> k = k' \/ map_index m k' = true.
Proof.
  unfold map_index. destruct (decide (k = k')) as [->|Hne].
  - rewrite lookup_insert_eq. simpl. tauto.
  - rewrite lookup_insert_ne by done. split; [tauto | intros [?|?]; done].
Qed.

Lemma map_index_fill_parts (parts : list string) (m : gmap string bool) (k : string) :
  map_index (fill_parts m parts) k = true <-> k ∈ parts \/ map_index m k = true.
Proof.
  unfold fill_parts. revert m.
  induction parts as [|p parts IH]; intros m; simpl.
  - rewrite elem_of_nil. tauto.
  - rewrite IH, map_index_insert, elem_of_cons. intuition congruence.
Qed.

(** The map built from a slice of parts is the set of those parts. *)
Lemma map_index_parts (parts : list string) (k : string) :
  map_index (fill_parts ∅ parts) k = true <-> k ∈ parts.
Proof.
  rewrite map_index_fill_parts. unfold map_index.
  rewrite lookup_empty. simpl. intuition discriminate.
Qed.

Lemma some_part_missing_false (m : gmap string bool) (lParts : list string) :
  some_part_missing m lParts = false
  <-> forall lPart, lPart ∈ lParts -> map_index m lPart = true.
Proof.
  induction lParts as [|l lParts IH]; simpl.
  - split; [intros _ ? H; by apply elem_of_nil in H | done].
  - destruct (map_index m l) eqn:Hl; simpl.
    + rewrite IH. split.
      * intros H x [->|Hx]%elem_of_cons; auto.
      * intros H x Hx. apply H, elem_of_cons. by right.
    + split; [discriminate |]. intros H.
      rewrite H in Hl; [discriminate | apply elem_of_cons; by left].
Qed.

Lemma some_part_missing_parts (token s : string) :
  some_part_missing (fill_parts ∅ (GoStrings.Split s hyphen))
                    (GoStrings.Split token hyphen) = false
  <-> parts_within token s.
Proof.
  rewrite some_part_missing_false. unfold parts_within.
  split; intros H part Hp; apply map_index_parts; auto.
  all: apply map_index_parts; auto.
Qed.

Lemma matchesLanguage_true (b : LanguageBackend) (language : string) :
  matchesLanguage b language = true
  <-> parts_within language (Name b) \/ parts_within language (Alias b).
Proof.
  unfold matchesLanguage.
  rewrite <- !some_part_missing_parts.
  destruct (some_part_missing (fill_parts ∅ (GoStrings.Split (Name b) hyphen)) _);
    destruct (some_part_missing (fill_parts ∅ (GoStrings.Split (Alias b) hyphen)) _);
    intuition discriminate.
Qed.

(** ** The probing computations *)

Section ProbingFacts.

Context {A B : Type}.

Lemma value_ret (a : A) (fs : Filesystem) : value (ret a) fs = a.
Proof. reflexivity. Qed.

Lemma probes_ret (a : A) (fs : Filesystem) : probes (ret a) fs = [].
Proof. reflexivity. Qed.

Lemma value_bind (m : Probing A) (k : A -> Probing B) (fs : Filesystem) :
  value (bind m k) fs = value (k (value m fs)) fs.
Proof.
  unfold value, bind. destruct (m fs) as [a log1]. simpl.
  by destruct (k a fs).
Qed.

Lemma probes_bind (m : Probing A) (k : A -> Probing B) (fs : Filesystem) :
  probes (bind m k) fs = probes m fs ++ probes (k (value m fs)) fs.
Proof.
  unfold probes, value, bind. destruct (m fs) as [a log1]. simpl.
  by destruct (k a fs).
Qed.

End ProbingFacts.

(** ** The loops of [GetBackend] *)

Section ResolverFacts.

Variable fs : Filesystem.

Lemma value_spec_and_lock (b : LanguageBackend) :
  value (spec_and_lock b) fs = both_exist fs b.
Proof.
  unfold spec_and_lock, both_exist. rewrite value_bind.
  unfold util.Exists, value at 2. simpl.
  by destruct (fs_exists fs (Specfile b)).
Qed.

Lemma value_spec_or_lock (b : LanguageBackend) :
  value (spec_or_lock b) fs = either_exists fs b.
Proof.
  unfold spec_or_lock, either_exists. rewrite value_bind.
  unfold util.Exists, value at 2. simpl.
  by destruct (fs_exists fs (Specfile b)).
Qed.

Lemma value_some_pattern (patterns : list string) :
  value (some_pattern patterns) fs = existsb (fs_pattern_exists fs) patterns.
Proof.
  induction patterns as [|p patterns IH]; simpl; [reflexivity |].
  rewrite value_bind. unfold util.PatternExists, value at 2. simpl.
  by destruct (fs_pattern_exists fs p).
Qed.

Lemma value_pattern_hit (b : LanguageBackend) :
  value (pattern_hit b) fs = pattern_found fs b.
Proof. apply value_some_pattern. Qed.

(** The loop returns the first backend of the slice on which the condition
    holds. *)
Lemma value_first_where (cond : LanguageBackend -> Probing bool)
    (p : LanguageBackend -> bool) (backends : list LanguageBackend) :
  (forall b, value (cond b) fs = p b) ->
  value (first_where cond backends) fs = List.find p backends.
Proof.
  intros Hcond. induction backends as [|b backends IH]; simpl; [reflexivity |].
  rewrite value_bind, Hcond. by destruct (p b).
Qed.

Lemma filter_backends_from (acc backends : list LanguageBackend) (language : string) :
  foldl (fun filteredBackends b =>
           if matchesLanguage b language then filteredBackends ++ [b]
           else filteredBackends) acc backends
  = acc ++ matching backends language.
Proof.
  revert acc. induction backends as [|b backends IH]; intros acc; simpl.
  - by rewrite app_nil_r.
  - rewrite IH. destruct (matchesLanguage b language); [|reflexivity].
    by rewrite <- app_assoc.
Qed.

(** The appending loop collects the matching backends in registry order. *)
Lemma filter_backends_matching (backends : list LanguageBackend) (language : string) :
  filter_backends backends language = matching backends language.
Proof. unfold filter_backends. by rewrite filter_backends_from. Qed.

(** Lines 101 to 123 over a working list. *)
Lemma value_autodetect (working : list LanguageBackend) (language : string) :
  value (autodetect working language) fs
  = match three_passes fs working with
    | Some b => Returned b
    | None => fallback working language
    end.
Proof.
  unfold autodetect, three_passes, fallback.
  rewrite value_bind, (value_first_where _ _ _ value_spec_and_lock).
  destruct (List.find (both_exist fs) working); [reflexivity |].
  rewrite value_bind, (value_first_where _ _ _ value_spec_or_lock).
  destruct (List.find (either_exists fs) working); [reflexivity |].
  rewrite value_bind, (value_first_where _ _ _ value_pattern_hit).
  destruct (List.find (pattern_found fs) working); [reflexivity |].
  destruct (String.eqb language ""); [reflexivity |].
  by destruct working.
Qed.

(** [GetBackend] by cases on the hint and on the matching backends. *)
Lemma value_GetBackend (registry : list LanguageBackend) (language : string) :
  value (GetBackend registry language) fs
  = if String.eqb language "" then
      value (autodetect registry language) fs
    else match matching registry language with
         | [] => UnknownLanguage language
         | [b] => Returned b
         | working => value (autodetect working language) fs
         end.
Proof.
  unfold GetBackend. rewrite filter_backends_matching.
  destruct (String.eqb language ""); simpl; [reflexivity |].
  destruct (matching registry language) as [|b [|b' more]]; try reflexivity.
  rewrite value_ret. apply Die_no_such_language.
Qed.

Lemma GetBackend_working (registry working : list LanguageBackend) (language : string) :
  working_list registry language = Some working ->
  value (GetBackend registry language) fs
  = value (autodetect working language) fs.
Proof.
  unfold working_list. rewrite value_GetBackend.
  destruct (String.eqb language ""); [by intros [= ->] |].
  destruct (matching registry language) as [|b [|b' more]]; try discriminate.
  by intros [= <-].
Qed.

End ResolverFacts.

(** ** Lists *)

Section ListFacts.

Context {A : Type}.
Implicit Types (p : A -> bool) (l : list A).

Lemma find_Some_elem p l x : List.find p l = Some x -> x ∈ l /\ p x = true.
Proof. intros H. apply find_some in H. by rewrite list_elem_of_In. Qed.

Lemma find_None_iff p l : List.find p l = None <-> forall x, x ∈ l -> p x = false.
Proof.
  split.
  - intros H x Hx. apply (find_none p l H). by apply list_elem_of_In.
  - intros H. destruct (List.find p l) as [x|] eqn:Hf; [|reflexivity].
    apply find_Some_elem in Hf as [Hx Hp]. rewrite (H x Hx) in Hp. discriminate.
Qed.

(** The first hit of a scan is the element at position [j] when no element
    before [j] is a hit. *)
Lemma find_first_at p l (j : nat) x :
  l !! j = Some x -> p x = true ->
  (forall k y, k < j -> l !! k = Some y -> p y = false) ->
  List.find p l = Some x.
Proof.
  revert j. induction l as [|a l IH]; intros j Hj Hp Hbefore; [done |].
  destruct j as [|j]; simpl in *.
  - injection Hj as ->. by rewrite Hp.
  - rewrite (Hbefore 0 a) by first [lia | done].
    apply (IH j); [done | done |].
    intros k y Hk Hy. apply (Hbefore (S k) y); [lia | done].
Qed.

End ListFacts.

Lemma elem_of_matching (registry : list LanguageBackend) (hint : string)
    (b : LanguageBackend) :
  b ∈ matching registry hint <-> b ∈ registry /\ matchesLanguage b hint = true.
Proof. unfold matching. by rewrite !list_elem_of_In, filter_In. Qed.

Section PassFacts.

Variable fs : Filesystem.

Lemma three_passes_elem (working : list LanguageBackend) (b : LanguageBackend) :
  three_passes fs working = Some b -> b ∈ working.
Proof.
  unfold three_passes.
  destruct (List.find (both_exist fs) working) as [a|] eqn:Ha.
  { intros [= <-]. by apply find_Some_elem in Ha as [? _]. }
  destruct (List.find (either_exists fs) working) as [o|] eqn:Ho.
  { intros [= <-]. by apply find_Some_elem in Ho as [? _]. }
  intros Hc. by apply find_Some_elem in Hc as [? _].
Qed.

Lemma no_evidence_bools (b : LanguageBackend) :
  no_evidence fs b <-> either_exists fs b = false /\ pattern_found fs b = false.
Proof.
  unfold no_evidence, either_exists. rewrite orb_false_iff. tauto.
Qed.

Lemma both_exist_either (b : LanguageBackend) :
  both_exist fs b = true -> either_exists fs b = true.
Proof.
  unfold both_exist, either_exists.
  destruct (fs_exists fs (Specfile b)); [done | discriminate].
Qed.

(** No pass finds a backend exactly when no backend of the working list has
    any evidence. *)
Lemma three_passes_None (working : list LanguageBackend) :
  three_passes fs working = None
  <-> forall b, b ∈ working -> no_evidence fs b.
Proof.
  unfold three_passes. split.
  - intros H b Hb. apply no_evidence_bools.
    destruct (List.find (both_exist fs) working) eqn:Ha; [discriminate |].
    destruct (List.find (either_exists fs) working) eqn:Ho; [discriminate |].
    split; [by apply (find_None_iff _ working) | by apply (find_None_iff _ working)].
  - intros H.
    assert (Ho : List.find (either_exists fs) working = None).
    { apply find_None_iff. intros b Hb.
      by apply (proj1 (no_evidence_bools b)), H. }
    assert (Ha : List.find (both_exist fs) working = None).
    { apply find_None_iff. intros b Hb.
      destruct (both_exist fs b) eqn:Hs; [|reflexivity].
      apply both_exist_either in Hs.
      rewrite (proj1 (find_None_iff _ _) Ho b Hb) in Hs. discriminate. }
    rewrite Ha, Ho. apply find_None_iff. intros b Hb.
    by apply (proj1 (no_evidence_bools b)), H.
Qed.

End PassFacts.

(** ** The Language Matcher *)

(** C7: the matcher is exact membership of the hyphen-separated parts: it
    answers true exactly when every part of the token is a part of the name
    or, failing that, every part of the token is a part of the alias.  So
    name python-poetry matches the token python-poetry; it matches the token
    python3 exactly when python3 is a part of the alias; with the alias
    python-python3-poetry it matches python3-poetry; and the token python3
    does not match the name part python321. *)
Theorem C7_matcher_exact_part_membership :
  (forall b language,
      matchesLanguage b language = true
      <-> parts_within language (Name b) \/ parts_within language (Alias b)) /\
  (forall alias spec lock patterns,
      matchesLanguage (mkBackend "python-poetry" alias spec lock patterns)
                      "python-poetry" = true) /\
  (forall alias spec lock patterns,
      matchesLanguage (mkBackend "python-poetry" alias spec lock patterns)
                      "python3" = true
      <-> "python3" ∈ GoStrings.Split alias hyphen) /\
  (forall spec lock patterns,
      matchesLanguage
        (mkBackend "python-poetry" "python-python3-poetry" spec lock patterns)
        "python3-poetry" = true) /\
  (forall alias spec lock patterns,
      matchesLanguage (mkBackend "python321" alias spec lock patterns)
                      "python3" = true
      <-> "python3" ∈ GoStrings.Split alias hyphen).
Proof.
  split; [exact matchesLanguage_true |].
  assert (Hone : forall name alias spec lock patterns,
             "python3" ∉ GoStrings.Split name hyphen ->
             matchesLanguage (mkBackend name alias spec lock patterns) "python3" = true
             <-> "python3" ∈ GoStrings.Split alias hyphen).
  { intros name alias spec lock patterns Hname.
    rewrite matchesLanguage_true. unfold parts_within. simpl. split.
    - intros [H|H]; [exfalso|]; [apply Hname|]; apply H, list_elem_of_singleton; done.
    - intros H. right. by intros part ->%list_elem_of_singleton. }
  assert (Hnot : forall parts : list string,
             forallb (fun part => negb (String.eqb "python3" part)) parts = true ->
             "python3" ∉ parts).
  { intros parts Hparts Hin. rewrite forallb_forall in Hparts.
    apply list_elem_of_In, Hparts in Hin. by rewrite String.eqb_refl in Hin. }
  split; [|split; [|split]].
  - intros. apply matchesLanguage_true. left. intros part Hpart. exact Hpart.
  - intros. apply (Hone "python-poetry"). by apply Hnot.
  - intros. reflexivity.
  - intros. apply (Hone "python321"). by apply Hnot.
Qed.

(** C8, as it is stated, fails: the name nodejs-npm has no empty part,
    the token "-" is not empty and its parts, two empty strings, are absent
    from the name, the alias of the backend is empty, and yet the backend
    matches, because the empty alias splits into one empty part. *)
Lemma C8_counterexample_hyphen_token :
  Alias sample_npm = "" /\
  "-" <> "" /\
  (exists part, part ∈ GoStrings.Split "-" hyphen /\
                part ∉ GoStrings.Split (Name sample_npm) hyphen) /\
  matchesLanguage sample_npm "-" = true /\
  matchesLanguage sample_npm "-" <> false.
Proof.
  split; [reflexivity |]. split; [discriminate |]. split; [|split].
  - exists "". split; [by left |]. simpl.
    intros H. repeat (apply elem_of_cons in H as [H|H]; [discriminate |]).
    by apply elem_of_nil in H.
  - reflexivity.
  - discriminate.
Qed.

Lemma parts_within_empty (token : string) :
  parts_within token "" <-> Forall (fun part => part = "") (GoStrings.Split token hyphen).
Proof.
  unfold parts_within. rewrite Forall_forall. simpl.
  split; intros H part Hpart.
  - by apply list_elem_of_singleton, H.
  - by apply list_elem_of_singleton, H.
Qed.

(** C8, amended: for a backend whose alias is empty and a non-empty token
    with a part that is absent from the parts of the name, the matcher
    answers false exactly when some part of the token is not the empty
    string; the empty alias splits into the one empty part, so a token whose
    parts are all empty still matches through it. *)
Theorem C8_empty_alias_matches_only_empty_parts
    (b : LanguageBackend) (language : string) :
  Alias b = "" ->
  language <> "" ->
  (exists part, part ∈ GoStrings.Split language hyphen /\
                part ∉ GoStrings.Split (Name b) hyphen) ->
  matchesLanguage b language = false
  <-> exists part, part ∈ GoStrings.Split language hyphen /\ part <> "".
Proof.
  intros Halias _ (missing & Hin & Hout).
  assert (Hname : ~ parts_within language (Name b)) by (intros H; by apply Hout, H).
  rewrite <- not_true_iff_false, matchesLanguage_true, Halias, parts_within_empty.
  split.
  - intros Hno.
    destruct (decide (Forall (fun part => part = "") (GoStrings.Split language hyphen)))
      as [Hall|Hnall]; [exfalso; apply Hno; by right |].
    apply not_Forall_Exists in Hnall; [|intros part; apply _].
    apply Exists_exists in Hnall as (part & Hpart & Hne). by exists part.
  - intros (part & Hpart & Hne) [Hn|Ha]; [by apply Hname |].
    rewrite Forall_forall in Ha. by apply Hne, Ha.
Qed.

Lemma C8_witness_python3_token :
  (Alias sample_npm = "" /\ "python3" <> "") /\
  (matchesLanguage sample_npm "python3" = false
   <-> exists part, part ∈ GoStrings.Split "python3" hyphen /\ part <> "").
Proof.
  split; [split; [reflexivity | discriminate] |].
  apply (C8_empty_alias_matches_only_empty_parts sample_npm "python3").
  - reflexivity.
  - discriminate.
  - exists "python3". split; [by left |]. simpl.
    intros H. repeat (apply elem_of_cons in H as [H|H]; [discriminate |]).
    by apply elem_of_nil in H.
Defined.

(** ** Autodetection *)

(** C1, as it is stated, fails: in the registry pip, bundler, npm, in a
    directory with a Python file, the two files of bundler and the two files
    of npm, pip (earlier) has only a pattern hit and npm (later) has specfile
    and lockfile, and yet the empty hint selects bundler, which has both
    files too and comes before npm. *)
Lemma C1_counterexample_earlier_strong_evidence :
  let registry := [sample_pip; sample_bundler; sample_npm] in
  let fs := directory ["Gemfile"; "Gemfile.lock"; "package.json"; "package-lock.json"]
                      ["*.py"] in
  registry !! 0 = Some sample_pip /\
  registry !! 2 = Some sample_npm /\
  only_pattern_hit fs sample_pip /\
  both_exist fs sample_npm = true /\
  value (GetBackend registry "") fs = Returned sample_bundler /\
  value (GetBackend registry "") fs <> Returned sample_npm.
Proof. cbv zeta. repeat split; try reflexivity. discriminate. Qed.

(** C1, amended: autodetection runs three passes in order over the working
    list (the registry for the empty hint, the matching backends when the
    hint matches more than one), and an earlier pass beats a later one: the
    first backend whose specfile and lockfile both exist, else the first
    whose specfile or lockfile exists, else the first with a pattern hit.  In
    particular, when D1 (earlier in the registry) has only a pattern hit, D2
    (later) has specfile and lockfile, and no backend before D2 has both
    files, the empty hint selects D2. *)
Theorem C1_three_passes_in_order
    (fs : Filesystem) (registry working : list LanguageBackend) (language : string) :
  working_list registry language = Some working ->
  value (GetBackend registry language) fs
  = match List.find (both_exist fs) working with
    | Some b => Returned b
    | None =>
        match List.find (either_exists fs) working with
        | Some b => Returned b
        | None =>
            match List.find (pattern_found fs) working with
            | Some b => Returned b
            | None => fallback working language
            end
        end
    end
  /\ (forall (i j : nat) (D1 D2 : LanguageBackend),
        language = "" ->
        i < j ->
        registry !! i = Some D1 ->
        registry !! j = Some D2 ->
        only_pattern_hit fs D1 ->
        both_exist fs D2 = true ->
        (forall k D, k < j -> registry !! k = Some D -> both_exist fs D = false) ->
        value (GetBackend registry language) fs = Returned D2).
Proof.
  intros Hworking.
  rewrite (GetBackend_working fs registry working language Hworking).
  rewrite value_autodetect. unfold three_passes. split.
  - destruct (List.find (both_exist fs) working); [reflexivity |].
    by destruct (List.find (either_exists fs) working).
  - intros i j D1 D2 -> _ _ Hj _ HD2 Hbefore.
    injection Hworking as <-.
    by rewrite (find_first_at (both_exist fs) registry j D2 Hj HD2 Hbefore).
Qed.

Lemma C1_witness_strong_beats_weak :
  let registry := [sample_pip; sample_bundler; sample_npm] in
  let fs := directory ["package.json"; "package-lock.json"] ["*.py"] in
  working_list registry "" = Some registry /\
  value (GetBackend registry "") fs = Returned sample_npm.
Proof.
  cbv zeta. split; [reflexivity |].
  refine (proj2 (C1_three_passes_in_order
                   (directory ["package.json"; "package-lock.json"] ["*.py"])
                   [sample_pip; sample_bundler; sample_npm]
                   [sample_pip; sample_bundler; sample_npm] "" eq_refl)
                0 2 sample_pip sample_npm eq_refl _ eq_refl eq_refl _ eq_refl _).
  - lia.
  - repeat split.
  - intros [|[|k]] D Hk HD; [| |lia]; injection HD as <-; reflexivity.
Defined.

(** C5, as it is stated, fails: in the registry poetry, bundler, npm, in a
    directory that holds the specfile and the lockfile of all three, bundler
    (earlier) and npm (later) both have specfile and lockfile, and yet the
    empty hint selects poetry, which comes before both. *)
Lemma C5_counterexample_third_backend_first :
  let registry := [sample_poetry; sample_bundler; sample_npm] in
  let fs := directory ["pyproject.toml"; "poetry.lock"; "Gemfile"; "Gemfile.lock";
                       "package.json"; "package-lock.json"] [] in
  registry !! 1 = Some sample_bundler /\
  registry !! 2 = Some sample_npm /\
  both_exist fs sample_bundler = true /\
  both_exist fs sample_npm = true /\
  value (GetBackend registry "") fs = Returned sample_poetry /\
  value (GetBackend registry "") fs <> Returned sample_bundler.
Proof. cbv zeta. repeat split; try reflexivity. discriminate. Qed.

(** C5, amended: registry order is the tie-break on equally strong
    evidence: when D1 (earlier in the registry) and D2 (later) both have an
    existing specfile and lockfile and no backend before D1 has both files,
    the empty hint selects D1. *)
Theorem C5_registry_order_breaks_ties
    (fs : Filesystem) (registry : list LanguageBackend)
    (i j : nat) (D1 D2 : LanguageBackend) :
  i < j ->
  registry !! i = Some D1 ->
  registry !! j = Some D2 ->
  both_exist fs D1 = true ->
  both_exist fs D2 = true ->
  (forall k D, k < i -> registry !! k = Some D -> both_exist fs D = false) ->
  value (GetBackend registry "") fs = Returned D1.
Proof.
  intros _ Hi _ HD1 _ Hbefore.
  rewrite (GetBackend_working fs registry registry "" eq_refl), value_autodetect.
  unfold three_passes.
  by rewrite (find_first_at (both_exist fs) registry i D1 Hi HD1 Hbefore).
Qed.

Lemma C5_witness_bundler_before_npm :
  let registry := [sample_pip; sample_bundler; sample_npm] in
  let fs := directory ["Gemfile"; "Gemfile.lock"; "package.json"; "package-lock.json"]
                      ["*.py"] in
  (registry !! 1 = Some sample_bundler /\ registry !! 2 = Some sample_npm /\
   both_exist fs sample_bundler = true /\ both_exist fs sample_npm = true) /\
  value (GetBackend registry "") fs = Returned sample_bundler.
Proof.
  cbv zeta. split; [repeat split |].
  apply (C5_registry_order_breaks_ties _ _ 1 2 sample_bundler sample_npm);
    try reflexivity.
  - lia.
  - intros [|k] D Hk HD; [|lia]. injection HD as <-. reflexivity.
Defined.

(** ** Selection under a hint *)

Lemma eqb_empty_false (language : string) :
  language <> "" -> String.eqb language "" = false.
Proof. intros H. by apply String.eqb_neq. Qed.

Lemma matching_nil (registry : list LanguageBackend) (hint : string) :
  matching registry hint = []
  <-> forall b, b ∈ registry -> matchesLanguage b hint = false.
Proof.
  split.
  - intros Hnil b Hb. destruct (matchesLanguage b hint) eqn:Hm; [|reflexivity].
    assert (Hin : b ∈ matching registry hint) by by apply elem_of_matching.
    rewrite Hnil in Hin. by apply elem_of_nil in Hin.
  - intros Hnone. destruct (matching registry hint) as [|b more] eqn:Hm; [reflexivity |].
    assert (Hin : b ∈ matching registry hint) by (rewrite Hm; by left).
    apply elem_of_matching in Hin as [Hb Hyes]. by rewrite (Hnone b Hb) in Hyes.
Qed.

(** With a hint, autodetection over a non-empty working list returns one of
    its backends. *)
Lemma autodetect_hinted (fs : Filesystem) (working : list LanguageBackend)
    (language : string) :
  language <> "" -> working <> [] ->
  exists b, value (autodetect working language) fs = Returned b /\ b ∈ working.
Proof.
  intros Hlang Hne. rewrite value_autodetect.
  destruct (three_passes fs working) as [b|] eqn:Hp.
  - exists b. split; [reflexivity | by apply three_passes_elem in Hp].
  - unfold fallback. rewrite (eqb_empty_false _ Hlang).
    destruct working as [|b more]; [done |]. exists b. split; [reflexivity | by left].
Qed.

(** With a hint that matches some backend, the call returns one of the
    matching backends. *)
Lemma GetBackend_hinted (fs : Filesystem) (registry : list LanguageBackend)
    (language : string) :
  language <> "" -> matching registry language <> [] ->
  exists b, value (GetBackend registry language) fs = Returned b
            /\ b ∈ matching registry language.
Proof.
  intros Hlang Hne. rewrite value_GetBackend, (eqb_empty_false _ Hlang).
  destruct (matching registry language) as [|b [|b' more]] eqn:Hm; [done | |].
  - exists b. split; [reflexivity | by left].
  - by apply autodetect_hinted.
Qed.

(** C3, as it is stated, fails: in the registry python3, python3-poetry the
    hint python3 is the full name of the first backend, it also matches the
    second, and in a directory with the two files of poetry the call
    selects poetry. *)
Lemma C3_counterexample_name_within_other_name :
  let registry := [sample_python; sample_poetry] in
  let fs := directory ["pyproject.toml"; "poetry.lock"] [] in
  "python3" <> "" /\
  sample_python ∈ registry /\
  "python3" = Name sample_python /\
  value (GetBackend registry "python3") fs = Returned sample_poetry /\
  value (GetBackend registry "python3") fs <> Returned sample_python.
Proof.
  cbv zeta. split; [discriminate |]. split; [by left |]. split; [reflexivity |].
  split; [reflexivity | discriminate].
Qed.

(** C3, amended: for every non-empty hint that is the full name of a
    registered backend and that no other registered backend matches, the
    call returns that backend, whatever the filesystem holds. *)
Theorem C3_full_name_selects_backend
    (fs : Filesystem) (registry : list LanguageBackend)
    (b : LanguageBackend) (language : string) :
  language <> "" ->
  b ∈ registry ->
  language = Name b ->
  (forall b', b' ∈ registry -> matchesLanguage b' language = true -> b' = b) ->
  value (GetBackend registry language) fs = Returned b.
Proof.
  intros Hlang Hb Hname Honly.
  assert (Hmatch : matchesLanguage b language = true).
  { apply matchesLanguage_true. left. rewrite Hname. by intros part Hpart. }
  destruct (GetBackend_hinted fs registry language Hlang) as (r & Hr & Hin).
  - intros Hnil. rewrite matching_nil in Hnil. by rewrite (Hnil b Hb) in Hmatch.
  - apply elem_of_matching in Hin as [Hreg Hm]. by rewrite Hr, (Honly r Hreg Hm).
Qed.

Lemma sample_registry_lookup (b : LanguageBackend) :
  b ∈ sample_registry ->
  b = sample_poetry \/ b = sample_pip \/ b = sample_npm \/
  b = sample_yarn \/ b = sample_bundler.
Proof.
  unfold sample_registry. rewrite !elem_of_cons, elem_of_nil. tauto.
Qed.

Lemma C3_witness_ruby_bundler :
  ("ruby-bundler" <> "" /\ sample_bundler ∈ sample_registry) /\
  value (GetBackend sample_registry "ruby-bundler")
        (directory ["package.json"; "package-lock.json"] ["*.py"])
  = Returned sample_bundler.
Proof.
  split; [split; [discriminate | unfold sample_registry; set_solver] |].
  apply (C3_full_name_selects_backend _ sample_registry sample_bundler "ruby-bundler").
  - discriminate.
  - unfold sample_registry. set_solver.
  - reflexivity.
  - intros b' Hb' Hm.
    destruct (sample_registry_lookup b' Hb') as [->|[->|[->|[->| ->]]]];
      first [reflexivity | discriminate Hm].
Defined.

(** C4: when a non-empty hint matches exactly one backend, the call returns
    it at once and performs no autodetection: whatever the filesystem holds,
    the result is that backend and the log of probes is empty. *)
Theorem C4_single_match_skips_autodetection
    (fs : Filesystem) (registry : list LanguageBackend)
    (b : LanguageBackend) (language : string) :
  language <> "" ->
  matching registry language = [b] ->
  GetBackend registry language fs = (Returned b, []).
Proof.
  intros Hlang Hone. unfold GetBackend.
  rewrite filter_backends_matching, Hone, (eqb_empty_false _ Hlang).
  reflexivity.
Qed.

Lemma C4_witness_hint_against_evidence :
  ("ruby" <> "" /\ matching sample_registry "ruby" = [sample_bundler]) /\
  GetBackend sample_registry "ruby"
             (directory ["package.json"; "package-lock.json"] ["*.py"])
  = (Returned sample_bundler, []).
Proof.
  split; [split; [discriminate | reflexivity] |].
  apply (C4_single_match_skips_autodetection _ sample_registry sample_bundler "ruby").
  - discriminate.
  - reflexivity.
Defined.

(** C6: when a non-empty hint matches two or more backends and none of them
    has an existing specfile, an existing lockfile or a pattern hit, the call
    returns the first matching backend in registry order, without error. *)
Theorem C6_narrowed_fallback
    (fs : Filesystem) (registry : list LanguageBackend) (language : string)
    (D1 D2 : LanguageBackend) (more : list LanguageBackend) :
  language <> "" ->
  matching registry language = D1 :: D2 :: more ->
  (forall b, b ∈ matching registry language -> no_evidence fs b) ->
  value (GetBackend registry language) fs = Returned D1.
Proof.
  intros Hlang Hm Hnone.
  rewrite value_GetBackend, (eqb_empty_false _ Hlang), Hm, value_autodetect.
  rewrite Hm in Hnone. apply three_passes_None in Hnone. rewrite Hnone.
  unfold fallback. by rewrite (eqb_empty_false _ Hlang).
Qed.

Lemma C6_witness_nodejs_in_empty_directory :
  ("nodejs" <> "" /\ matching sample_registry "nodejs" = [sample_npm; sample_yarn]) /\
  value (GetBackend sample_registry "nodejs") empty_directory = Returned sample_npm.
Proof.
  split; [split; [discriminate | reflexivity] |].
  apply (C6_narrowed_fallback _ sample_registry "nodejs" sample_npm sample_yarn []).
  - discriminate.
  - reflexivity.
  - intros b Hb. change (b ∈ [sample_npm; sample_yarn]) in Hb.
    rewrite !elem_of_cons, elem_of_nil in Hb.
    destruct Hb as [->|[->|[]]]; repeat split.
Defined.

(** C10: for every non-empty hint that matches a registered backend the call
    does not fail, and the backend it returns is one of the matching
    backends of the registry: it satisfies [matchesLanguage] for the hint. *)
Theorem C10_result_matches_hint
    (fs : Filesystem) (registry : list LanguageBackend) (language : string) :
  language <> "" ->
  (exists b, b ∈ registry /\ matchesLanguage b language = true) ->
  exists r, value (GetBackend registry language) fs = Returned r /\
            r ∈ matching registry language /\
            r ∈ registry /\
            matchesLanguage r language = true.
Proof.
  intros Hlang (b & Hb & Hm).
  destruct (GetBackend_hinted fs registry language Hlang) as (r & Hr & Hin).
  - intros Hnil. rewrite matching_nil in Hnil. by rewrite (Hnil b Hb) in Hm.
  - exists r. split; [exact Hr |]. split; [exact Hin |].
    by apply elem_of_matching in Hin.
Qed.

Lemma C10_witness_python_hint :
  ("python" <> "" /\ sample_poetry ∈ sample_registry /\
   matchesLanguage sample_poetry "python" = true) /\
  exists r, value (GetBackend sample_registry "python")
                  (directory ["requirements.txt"; "package.json"] ["*.js"])
            = Returned r /\
            r ∈ matching sample_registry "python" /\
            r ∈ sample_registry /\
            matchesLanguage r "python" = true.
Proof.
  assert (Hin : sample_poetry ∈ sample_registry) by (unfold sample_registry; by left).
  split; [split; [discriminate | split; [exact Hin | reflexivity]] |].
  apply (C10_result_matches_hint _ sample_registry "python").
  - discriminate.
  - exists sample_poetry. split; [exact Hin | reflexivity].
Defined.

(** ** Failure *)

Lemma includes_suffix (before hint : string) : includes (before +:+ hint) hint.
Proof. exists before, "". by rewrite string_app_empty_r. Qed.

(** C2: the call fails exactly when the hint is non-empty and matches no
    backend, or the hint is empty and no backend has a specfile, a lockfile
    or a pattern hit.  In the first case the failure is [UnknownLanguage] and
    its message includes the hint; in the second it is [NoLanguageDetected];
    there is no other failure, no index out of range in particular, and in
    every other case a backend is returned. *)
Theorem C2_failure_paths
    (fs : Filesystem) (registry : list LanguageBackend) (language : string) :
  (fails (value (GetBackend registry language) fs)
   <-> (language <> "" /\
        forall b, b ∈ registry -> matchesLanguage b language = false)
       \/ (language = "" /\ forall b, b ∈ registry -> no_evidence fs b)) /\
  ((language <> "" /\
    forall b, b ∈ registry -> matchesLanguage b language = false) ->
   value (GetBackend registry language) fs = UnknownLanguage language /\
   exists message, UnknownLanguage language = Died message /\
                   includes message language) /\
  ((language = "" /\ forall b, b ∈ registry -> no_evidence fs b) ->
   value (GetBackend registry language) fs = NoLanguageDetected) /\
  value (GetBackend registry language) fs <> IndexOutOfRange /\
  (~ fails (value (GetBackend registry language) fs) ->
   exists b, value (GetBackend registry language) fs = Returned b).
Proof.
  assert (Hunknown : language <> "" ->
            (forall b, b ∈ registry -> matchesLanguage b language = false) ->
            value (GetBackend registry language) fs = UnknownLanguage language).
  { intros Hlang Hnone%matching_nil.
    by rewrite value_GetBackend, (eqb_empty_false _ Hlang), Hnone. }
  assert (Hnothing : language = "" ->
            (forall b, b ∈ registry -> no_evidence fs b) ->
            value (GetBackend registry language) fs = NoLanguageDetected).
  { intros -> Hnone%three_passes_None.
    by rewrite value_GetBackend, value_autodetect, Hnone. }
  assert (Hreturned :
            ~ ((language <> "" /\
                forall b, b ∈ registry -> matchesLanguage b language = false)
               \/ (language = "" /\ forall b, b ∈ registry -> no_evidence fs b)) ->
            exists b, value (GetBackend registry language) fs = Returned b).
  { intros Hnot. destruct (decide (language = "")) as [->|Hlang].
    - rewrite value_GetBackend, value_autodetect. simpl.
      destruct (three_passes fs registry) as [b|] eqn:Hp; [by exists b |].
      exfalso. apply Hnot. right. split; [reflexivity |].
      by apply three_passes_None.
    - destruct (GetBackend_hinted fs registry language Hlang) as (b & Hb & _);
        [|by exists b].
      intros Hnil. rewrite matching_nil in Hnil. apply Hnot. by left. }
  assert (Hiff : fails (value (GetBackend registry language) fs)
            <-> (language <> "" /\
                 forall b, b ∈ registry -> matchesLanguage b language = false)
                \/ (language = "" /\ forall b, b ∈ registry -> no_evidence fs b)).
  { split.
    - intros Hfails.
      destruct (decide (language = "")) as [->|Hlang].
      + right. split; [reflexivity |]. apply three_passes_None.
        rewrite value_GetBackend, value_autodetect in Hfails. simpl in Hfails.
        by destruct (three_passes fs registry).
      + left. split; [exact Hlang |]. apply matching_nil.
        destruct (matching registry language) as [|b more] eqn:Hm; [reflexivity |].
        destruct (GetBackend_hinted fs registry language Hlang) as (r & Hr & _).
        * by rewrite Hm.
        * by rewrite Hr in Hfails.
    - intros [[Hlang Hnone]|[Hlang Hnone]].
      + by rewrite (Hunknown Hlang Hnone).
      + by rewrite (Hnothing Hlang Hnone). }
  split; [exact Hiff |]. split; [|split; [|split]].
  - intros [Hlang Hnone]. split; [by apply Hunknown |].
    exists ("no such language: " +:+ language).
    split; [reflexivity | apply includes_suffix].
  - intros [Hlang Hnone]. by apply Hnothing.
  - intros Hpanic.
    assert (Hfails : fails (value (GetBackend registry language) fs))
      by by rewrite Hpanic.
    apply Hiff in Hfails as [[Hlang Hnone]|[Hlang Hnone]].
    + by rewrite (Hunknown Hlang Hnone) in Hpanic.
    + by rewrite (Hnothing Hlang Hnone) in Hpanic.
  - intros Hok. apply Hreturned. by rewrite <- Hiff.
Qed.

(** ** Determinism *)

Section Determinism.

Variables fs1 fs2 : Filesystem.
Hypothesis same_exists : forall path, fs_exists fs1 path = fs_exists fs2 path.
Hypothesis same_patterns :
  forall pattern, fs_pattern_exists fs1 pattern = fs_pattern_exists fs2 pattern.

Local Abbreviation same_run := (same_run_in fs1 fs2).

Lemma same_run_ret {A : Type} (a : A) : same_run (ret a).
Proof. reflexivity. Qed.

Lemma same_run_bind {A B : Type} (m : Probing A) (k : A -> Probing B) :
  same_run m -> (forall a, same_run (k a)) -> same_run (bind m k).
Proof.
  unfold same_run_in, bind. intros -> Hk.
  destruct (m fs2) as [a log1]. by rewrite Hk.
Qed.

Lemma same_run_Exists (path : string) : same_run (util.Exists path).
Proof. unfold same_run_in, util.Exists. by rewrite same_exists. Qed.

Lemma same_run_PatternExists (pattern : string) :
  same_run (util.PatternExists pattern).
Proof. unfold same_run_in, util.PatternExists. by rewrite same_patterns. Qed.

Lemma same_run_spec_and_lock (b : LanguageBackend) : same_run (spec_and_lock b).
Proof.
  apply same_run_bind; [apply same_run_Exists |].
  intros [|]; [apply same_run_Exists | apply same_run_ret].
Qed.

Lemma same_run_spec_or_lock (b : LanguageBackend) : same_run (spec_or_lock b).
Proof.
  apply same_run_bind; [apply same_run_Exists |].
  intros [|]; [apply same_run_ret | apply same_run_Exists].
Qed.

Lemma same_run_pattern_hit (b : LanguageBackend) : same_run (pattern_hit b).
Proof.
  unfold pattern_hit. induction (FilenamePatterns b) as [|p patterns IH]; simpl.
  - apply same_run_ret.
  - apply same_run_bind; [apply same_run_PatternExists |].
    intros [|]; [apply same_run_ret | exact IH].
Qed.

Lemma same_run_first_where (cond : LanguageBackend -> Probing bool)
    (backends : list LanguageBackend) :
  (forall b, same_run (cond b)) -> same_run (first_where cond backends).
Proof.
  intros Hcond. induction backends as [|b backends IH]; simpl.
  - apply same_run_ret.
  - apply same_run_bind; [apply Hcond |].
    intros [|]; [apply same_run_ret | exact IH].
Qed.

Lemma same_run_autodetect (backends : list LanguageBackend) (language : string) :
  same_run (autodetect backends language).
Proof.
  unfold autodetect.
  apply same_run_bind;
    [apply same_run_first_where, same_run_spec_and_lock |].
  intros [b|]; [apply same_run_ret |].
  apply same_run_bind;
    [apply same_run_first_where, same_run_spec_or_lock |].
  intros [b|]; [apply same_run_ret |].
  apply same_run_bind;
    [apply same_run_first_where, same_run_pattern_hit |].
  intros [b|]; [apply same_run_ret |].
  destruct (String.eqb language ""); [apply same_run_ret |].
  destruct backends; apply same_run_ret.
Qed.

Lemma same_run_GetBackend (registry : list LanguageBackend) (language : string) :
  same_run (GetBackend registry language).
Proof.
  unfold GetBackend. destruct (negb (String.eqb language ""));
    [|apply same_run_autodetect].
  destruct (filter_backends registry language) as [|b [|b' more]];
    [apply same_run_ret | apply same_run_ret | apply same_run_autodetect].
Qed.

End Determinism.

Section Replay.

Variables fs1 fs2 : Filesystem.











End Replay.

(** Not every computation over a snapshot has this property: one that read
    the snapshot without a probe would not. *)
Example reading_without_probe_does_not_replay :
  ~ replays (directory ["Gemfile"] []) empty_directory
            (fun fs => (fs_exists fs "Gemfile", [])).
Proof.
  intros Hreplay.
  assert (Hrun : (true, @nil probe) = (false, [])); [|discriminate Hrun].
  apply Hreplay. by intros pr ?%elem_of_nil.
Qed.



(** * Further properties of the code *)

(** ** [strings.Split] as [matchesLanguage] uses it *)

Lemma Split_join (s : string) (sep : ascii) :
  join_parts (GoStrings.Split s sep) sep = s.
Proof.
  induction s as [|c s IH]; [reflexivity |].
  simpl. destruct (Ascii.eqb_spec c sep) as [->|Hne].
  - pose proof (Split_nonempty s sep) as Hne.
    destruct (GoStrings.Split s sep) as [|part parts]; [done |].
    change (String sep (join_parts (part :: parts) sep) = String sep s).
    by rewrite IH.
  - destruct (GoStrings.Split s sep) as [|part parts] eqn:Hs.
    { by destruct (Split_nonempty s sep). }
    destruct parts as [|part' parts]; simpl in *; by rewrite <- IH.
Qed.

(** X1: putting the parts of [Split] together again, with the separator
    between them, gives the string back: the parts lose no byte of the
    string and add none.  There is always a part, and the empty string has
    the one empty part. *)
Theorem X1_Split_join (s : string) (sep : ascii) :
  join_parts (GoStrings.Split s sep) sep = s /\
  GoStrings.Split s sep <> [] /\
  GoStrings.Split "" sep = [""].
Proof.
  split; [apply Split_join |]. split; [apply Split_nonempty | reflexivity].
Qed.

Lemma Split_app_sep (part rest : string) (sep : ascii) :
  (forall i, String.get i part <> Some sep) ->
  GoStrings.Split (part +:+ String sep rest) sep = part :: GoStrings.Split rest sep.
Proof.
  induction part as [|c part IH]; intros Hpart.
  - simpl. by rewrite Ascii.eqb_refl.
  - change (String c part +:+ String sep rest)
      with (String c (part +:+ String sep rest)).
    simpl. destruct (Ascii.eqb_spec c sep) as [->|Hne].
    + by specialize (Hpart 0).
    + rewrite IH; [reflexivity |]. intros i. apply (Hpart (S i)).
Qed.

(** X2: [Split] finds exactly the parts a string was made of: for a
    non-empty list of parts none of which holds the separator, splitting
    the parts joined by the separator gives the parts back, the empty parts
    among them too. *)
Theorem X2_join_Split (parts : list string) (sep : ascii) :
  parts <> [] ->
  Forall (fun part => forall i, String.get i part <> Some sep) parts ->
  GoStrings.Split (join_parts parts sep) sep = parts.
Proof.
  intros Hne Hparts. induction Hparts as [|part parts Hpart Hparts IH]; [done |].
  destruct parts as [|part' parts].
  - simpl. by apply Split_without_sep.
  - change (join_parts (part :: part' :: parts) sep)
      with (part +:+ String sep (join_parts (part' :: parts) sep)).
    rewrite Split_app_sep by done. by rewrite IH.
Qed.

Lemma X2_witness_empty_parts :
  [""; "a"; ""] <> [] /\
  GoStrings.Split (join_parts [""; "a"; ""] hyphen) hyphen = [""; "a"; ""].
Proof.
  split; [discriminate |].
  apply (X2_join_Split [""; "a"; ""] hyphen); [discriminate |].
  repeat constructor; intros [|[|i]]; simpl; discriminate.
Defined.

Lemma Split_length (s : string) (sep : ascii) :
  length (GoStrings.Split s sep) = S (count_sep s sep).
Proof.
  induction s as [|c s IH]; [reflexivity |].
  simpl. destruct (Ascii.eqb c sep); simpl; [by rewrite IH |].
  destruct (GoStrings.Split s sep); simpl in *; lia.
Qed.

(** ** More on the matcher *)

Lemma bool_eq_true_iff (x y : bool) : (x = true <-> y = true) -> x = y.
Proof. destruct x, y; intuition congruence. Qed.

(** X3: the matcher sees a token only as the set of its parts: two tokens
    with the same parts, in whatever order and however often repeated, get
    the same answer from every backend. *)
Theorem X3_matcher_sees_set_of_parts (b : LanguageBackend) (token1 token2 : string) :
  (forall part, part ∈ GoStrings.Split token1 hyphen
                <-> part ∈ GoStrings.Split token2 hyphen) ->
  matchesLanguage b token1 = matchesLanguage b token2.
Proof.
  intros Hsame. apply bool_eq_true_iff. rewrite !matchesLanguage_true.
  unfold parts_within.
  split; (intros [H|H]; [left | right]; intros part Hpart; apply H, Hsame, Hpart).
Qed.

Lemma X3_witness_order_and_repetition :
  matchesLanguage sample_poetry "poetry-python-poetry"
  = matchesLanguage sample_poetry "python-poetry" /\
  matchesLanguage sample_poetry "poetry-python-poetry" = true.
Proof.
  split; [|reflexivity].
  apply (X3_matcher_sees_set_of_parts sample_poetry
           "poetry-python-poetry" "python-poetry").
  intros part. simpl. rewrite !elem_of_cons, elem_of_nil. tauto.
Defined.

(** X4: a token with fewer parts matches more: when every part of one token
    is a part of another, every backend that matches the other token matches
    the one, so the backends a hint selects can only grow when parts are
    dropped from the hint. *)
Theorem X4_fewer_parts_match_more
    (registry : list LanguageBackend) (token1 token2 : string) :
  parts_within token1 token2 ->
  (forall b, matchesLanguage b token2 = true -> matchesLanguage b token1 = true) /\
  (forall b, b ∈ matching registry token2 -> b ∈ matching registry token1).
Proof.
  intros Hwithin.
  assert (Hone : forall b, matchesLanguage b token2 = true
                           -> matchesLanguage b token1 = true).
  { intros b. rewrite !matchesLanguage_true. unfold parts_within in *.
    intros [H|H]; [left | right]; intros part Hpart; apply H, Hwithin, Hpart. }
  split; [exact Hone |].
  intros b. rewrite !elem_of_matching. intros [Hb Hm]. split; [|apply Hone]; done.
Qed.

Lemma X4_witness_python3_within_python3_pip :
  parts_within "python3" "python3-pip" /\
  (sample_pip ∈ matching sample_registry "python3-pip"
   -> sample_pip ∈ matching sample_registry "python3").
Proof.
  assert (Hwithin : parts_within "python3" "python3-pip").
  { intros part. simpl. rewrite !elem_of_cons, elem_of_nil. tauto. }
  split; [exact Hwithin |].
  exact (proj2 (X4_fewer_parts_match_more sample_registry "python3" "python3-pip"
                  Hwithin) sample_pip).
Defined.

(** ** The probes that [GetBackend] makes *)

Section ProbeFacts.

Variable fs : Filesystem.

Lemma probes_spec_and_lock (b : LanguageBackend) :
  probes (spec_and_lock b) fs
  = ProbeExists (Specfile b)
    :: (if fs_exists fs (Specfile b) then [ProbeExists (Lockfile b)] else []).
Proof.
  unfold spec_and_lock. rewrite probes_bind.
  unfold util.Exists, value at 1, probes at 1. simpl.
  by destruct (fs_exists fs (Specfile b)).
Qed.

Lemma probes_spec_or_lock (b : LanguageBackend) :
  probes (spec_or_lock b) fs
  = ProbeExists (Specfile b)
    :: (if fs_exists fs (Specfile b) then [] else [ProbeExists (Lockfile b)]).
Proof.
  unfold spec_or_lock. rewrite probes_bind.
  unfold util.Exists, value at 1, probes at 1. simpl.
  by destruct (fs_exists fs (Specfile b)).
Qed.

(** The two loops over specfile and lockfile ask three questions about a
    backend that both of them visit. *)
Lemma probes_spec_lock_three (b : LanguageBackend) :
  length (probes (spec_and_lock b) fs) + length (probes (spec_or_lock b) fs) = 3.
Proof.
  rewrite probes_spec_and_lock, probes_spec_or_lock.
  by destruct (fs_exists fs (Specfile b)).
Qed.

Lemma probes_some_pattern_elem (patterns : list string) (pr : probe) :
  pr ∈ probes (some_pattern patterns) fs ->
  exists pattern, pattern ∈ patterns /\ pr = ProbePatternExists pattern.
Proof.
  induction patterns as [|p patterns IH]; simpl.
  - rewrite probes_ret. by intros ?%elem_of_nil.
  - rewrite probes_bind. unfold util.PatternExists, value at 1, probes at 1. simpl.
    intros [->|Hpr]%elem_of_cons.
    + exists p. split; [by left | reflexivity].
    + destruct (fs_pattern_exists fs p).
      * rewrite probes_ret in Hpr. by apply elem_of_nil in Hpr.
      * destruct (IH Hpr) as (pattern & Hin & ->).
        exists pattern. split; [by right | reflexivity].
Qed.

Lemma probes_some_pattern_length (patterns : list string) :
  length (probes (some_pattern patterns) fs) <= length patterns.
Proof.
  induction patterns as [|p patterns IH]; [reflexivity |].
  cbn [some_pattern length].
  rewrite probes_bind. unfold util.PatternExists, value at 1, probes at 1.
  cbn [fst snd app length].
  destruct (fs_pattern_exists fs p); [rewrite probes_ret; simpl; lia | lia].
Qed.

Lemma probes_first_where_elem (cond : LanguageBackend -> Probing bool)
    (backends : list LanguageBackend) (pr : probe) :
  pr ∈ probes (first_where cond backends) fs ->
  exists b, b ∈ backends /\ pr ∈ probes (cond b) fs.
Proof.
  induction backends as [|b backends IH]; simpl.
  - rewrite probes_ret. by intros ?%elem_of_nil.
  - rewrite probes_bind. intros [Hpr|Hpr]%elem_of_app.
    + exists b. split; [by left | done].
    + destruct (value (cond b) fs).
      * rewrite probes_ret in Hpr. by apply elem_of_nil in Hpr.
      * destruct (IH Hpr) as (b' & Hin & Hb'). exists b'. split; [by right | done].
Qed.

Lemma probes_first_where_length (cond : LanguageBackend -> Probing bool)
    (backends : list LanguageBackend) :
  length (probes (first_where cond backends) fs)
  <= sum_list_with (fun b => length (probes (cond b) fs)) backends.
Proof.
  induction backends as [|b backends IH]; [reflexivity |].
  cbn [first_where sum_list_with].
  rewrite probes_bind, length_app.
  destruct (value (cond b) fs); [rewrite probes_ret; simpl; lia | lia].
Qed.

(** The log of lines 101 to 123: the second loop runs only when the first
    found nothing, the third only when the second found nothing. *)
Lemma probes_autodetect (working : list LanguageBackend) (language : string) :
  probes (autodetect working language) fs
  = probes (first_where spec_and_lock working) fs
    ++ match List.find (both_exist fs) working with
       | Some _ => []
       | None =>
           probes (first_where spec_or_lock working) fs
           ++ match List.find (either_exists fs) working with
              | Some _ => []
              | None => probes (first_where pattern_hit working) fs
              end
       end.
Proof.
  unfold autodetect.
  rewrite probes_bind, (value_first_where fs _ _ _ (value_spec_and_lock fs)).
  f_equal. destruct (List.find (both_exist fs) working); [reflexivity |].
  rewrite probes_bind, (value_first_where fs _ _ _ (value_spec_or_lock fs)).
  f_equal. destruct (List.find (either_exists fs) working); [reflexivity |].
  rewrite probes_bind, (value_first_where fs _ _ _ (value_pattern_hit fs)).
  destruct (List.find (pattern_found fs) working); cbv beta iota;
    [by rewrite probes_ret, app_nil_r |].
  destruct (String.eqb language ""); [by rewrite probes_ret, app_nil_r |].
  destruct working; by rewrite probes_ret, app_nil_r.
Qed.

(** Probes are made by autodetection only. *)
Lemma probes_GetBackend (registry : list LanguageBackend) (language : string) :
  probes (GetBackend registry language) fs
  = match working_list registry language with
    | Some working => probes (autodetect working language) fs
    | None => []
    end.
Proof.
  unfold GetBackend, working_list. rewrite filter_backends_matching.
  destruct (String.eqb language ""); simpl; [reflexivity |].
  by destruct (matching registry language) as [|b [|b' more]].
Qed.

Lemma working_list_elem (registry working : list LanguageBackend)
    (language : string) (b : LanguageBackend) :
  working_list registry language = Some working ->
  b ∈ working
  <-> b ∈ registry /\ (language = "" \/ matchesLanguage b language = true).
Proof.
  unfold working_list. destruct (String.eqb_spec language "") as [->|Hlang].
  - intros [= <-]. intuition.
  - destruct (matching registry language) as [|b1 [|b2 more]] eqn:Hm; try discriminate.
    intros [= <-]. rewrite <- Hm, elem_of_matching. intuition.
Qed.

End ProbeFacts.

(** ** What [GetBackend] returns *)

Lemma candidate_working (registry working : list LanguageBackend)
    (language : string) (b : LanguageBackend) :
  working_list registry language = Some working ->
  b ∈ working <-> candidate registry language b.
Proof. apply working_list_elem. Qed.

Lemma candidate_matching (registry : list LanguageBackend)
    (language : string) (b : LanguageBackend) :
  language <> "" ->
  candidate registry language b <-> b ∈ matching registry language.
Proof.
  intros Hlang. unfold candidate. rewrite elem_of_matching. intuition.
Qed.

Lemma GetBackend_Returned_elem
    (fs : Filesystem) (registry : list LanguageBackend) (language : string)
    (b : LanguageBackend) :
  value (GetBackend registry language) fs = Returned b -> b ∈ registry.
Proof.
  intros Hb. destruct (decide (language = "")) as [->|Hlang].
  - rewrite value_GetBackend, value_autodetect in Hb. simpl in Hb.
    destruct (three_passes fs registry) as [r|] eqn:Hp; [|discriminate].
    injection Hb as ->. by apply three_passes_elem in Hp.
  - destruct (matching registry language) as [|b0 more] eqn:Hm.
    + rewrite value_GetBackend, (eqb_empty_false _ Hlang), Hm in Hb. discriminate.
    + destruct (GetBackend_hinted fs registry language Hlang) as (r & Hr & Hin);
        [by rewrite Hm |].
      rewrite Hr in Hb. injection Hb as ->.
      by apply elem_of_matching in Hin as [? _].
Qed.

(** X5: a call returns only a backend of the registry, whatever the hint and
    the filesystem. *)
Theorem X5_returns_registered_backend
    (fs : Filesystem) (registry : list LanguageBackend) (language : string)
    (b : LanguageBackend) :
  value (GetBackend registry language) fs = Returned b ->
  b ∈ registry.
Proof. apply GetBackend_Returned_elem. Qed.

Lemma X5_witness_yarn_by_lockfile :
  value (GetBackend sample_registry "")
        (directory ["package.json"; "yarn.lock"] []) = Returned sample_yarn /\
  sample_yarn ∈ sample_registry.
Proof.
  split; [reflexivity |].
  apply (X5_returns_registered_backend
           (directory ["package.json"; "yarn.lock"] []) sample_registry ""
           sample_yarn).
  reflexivity.
Defined.

Section RankFacts.

Variable fs : Filesystem.

Lemma evidence_rank_zero (b : LanguageBackend) :
  no_evidence fs b -> evidence_rank fs b = 0.
Proof.
  intros [Hs [Hl Hp]]. unfold evidence_rank, both_exist, either_exists.
  by rewrite Hs, Hl, Hp.
Qed.

Lemma evidence_rank_bound (b : LanguageBackend) : evidence_rank fs b <= 3.
Proof.
  unfold evidence_rank.
  destruct (both_exist fs b), (either_exists fs b), (pattern_found fs b); lia.
Qed.

(** The three passes pick a backend with evidence, and with evidence as
    strong as any in the working list. *)
Lemma three_passes_strongest (working : list LanguageBackend) (b : LanguageBackend) :
  three_passes fs working = Some b ->
  1 <= evidence_rank fs b /\
  forall b', b' ∈ working -> evidence_rank fs b' <= evidence_rank fs b.
Proof.
  unfold three_passes.
  destruct (List.find (both_exist fs) working) as [a|] eqn:Ha.
  { intros [= ->]. apply find_Some_elem in Ha as [_ Ha].
    unfold evidence_rank at 1 3. rewrite Ha.
    split; [lia | intros; apply evidence_rank_bound]. }
  rewrite find_None_iff in Ha.
  destruct (List.find (either_exists fs) working) as [o|] eqn:Ho.
  { intros [= ->]. apply find_Some_elem in Ho as [Hin Ho].
    unfold evidence_rank at 1 3. rewrite (Ha b Hin), Ho.
    split; [lia |]. intros b' Hb'. unfold evidence_rank. rewrite (Ha b' Hb').
    destruct (either_exists fs b'), (pattern_found fs b'); lia. }
  rewrite find_None_iff in Ho.
  intros Hc. apply find_Some_elem in Hc as [Hin Hc].
  unfold evidence_rank at 1 3. rewrite (Ha b Hin), (Ho b Hin), Hc.
  split; [lia |]. intros b' Hb'. unfold evidence_rank.
  rewrite (Ha b' Hb'), (Ho b' Hb'). destruct (pattern_found fs b'); lia.
Qed.

End RankFacts.

(** X6: the backend that a call returns has evidence at least as strong as
    every backend it could have chosen (the whole registry for the empty
    hint, the backends that the hint matches otherwise), where specfile and
    lockfile together are stronger than one of them, and one of them is
    stronger than a pattern hit; with the empty hint the backend returned
    has some evidence. *)
Theorem X6_returns_strongest_evidence
    (fs : Filesystem) (registry : list LanguageBackend) (language : string)
    (b : LanguageBackend) :
  value (GetBackend registry language) fs = Returned b ->
  (forall b', candidate registry language b' ->
              evidence_rank fs b' <= evidence_rank fs b) /\
  (language = "" -> 1 <= evidence_rank fs b).
Proof.
  intros Hb. destruct (decide (language = "")) as [->|Hlang].
  - rewrite value_GetBackend, value_autodetect in Hb. simpl in Hb.
    destruct (three_passes fs registry) as [r|] eqn:Hp; [|discriminate].
    injection Hb as ->. apply three_passes_strongest in Hp as [Hone Hmax].
    split; [|done]. intros b' [Hb' _]. by apply Hmax.
  - split; [|done]. intros b' Hb'%candidate_matching; [|done].
    rewrite value_GetBackend, (eqb_empty_false _ Hlang) in Hb.
    destruct (matching registry language) as [|b1 [|b2 more]] eqn:Hm.
    + discriminate.
    + injection Hb as ->. by apply list_elem_of_singleton in Hb' as ->.
    + rewrite value_autodetect in Hb.
      destruct (three_passes fs (b1 :: b2 :: more)) as [r|] eqn:Hp.
      * injection Hb as ->. apply three_passes_strongest in Hp as [_ Hmax].
        by apply Hmax.
      * rewrite three_passes_None in Hp.
        rewrite (evidence_rank_zero fs b' (Hp b' Hb')). lia.
Qed.

Lemma X6_witness_lockfile_beats_pattern :
  value (GetBackend sample_registry "")
        (directory ["Gemfile.lock"] ["*.py"; "*.js"]) = Returned sample_bundler /\
  evidence_rank (directory ["Gemfile.lock"] ["*.py"; "*.js"]) sample_poetry
  <= evidence_rank (directory ["Gemfile.lock"] ["*.py"; "*.js"]) sample_bundler.
Proof.
  split; [reflexivity |].
  refine (proj1 (X6_returns_strongest_evidence
                   (directory ["Gemfile.lock"] ["*.py"; "*.js"])
                   sample_registry "" sample_bundler eq_refl) sample_poetry _).
  split; [by left | by left].
Defined.

Lemma find_filter_Some {A : Type} (p q : A -> bool) (l : list A) (x : A) :
  q x = true -> List.find p l = Some x -> List.find p (List.filter q l) = Some x.
Proof.
  intros Hq. induction l as [|a l IH]; [done |].
  simpl. destruct (p a) eqn:Hpa.
  - intros [= ->]. rewrite Hq. simpl. by rewrite Hpa.
  - intros Hfind. destruct (q a); [|by apply IH].
    simpl. rewrite Hpa. by apply IH.
Qed.

Lemma find_filter_None {A : Type} (p q : A -> bool) (l : list A) :
  List.find p l = None -> List.find p (List.filter q l) = None.
Proof.
  rewrite !find_None_iff. intros Hnone x Hx.
  apply list_elem_of_In, filter_In in Hx as [Hx _].
  by apply Hnone, list_elem_of_In.
Qed.

(** X7: a hint that agrees with autodetection does not change the result:
    when the call with the empty hint returns a backend and a non-empty hint
    matches that backend, the call with that hint returns the same backend. *)
Theorem X7_hint_consistent_with_autodetection
    (fs : Filesystem) (registry : list LanguageBackend) (language : string)
    (b : LanguageBackend) :
  value (GetBackend registry "") fs = Returned b ->
  language <> "" ->
  matchesLanguage b language = true ->
  value (GetBackend registry language) fs = Returned b.
Proof.
  intros Hb Hlang Hm.
  rewrite value_GetBackend, value_autodetect in Hb. simpl in Hb.
  destruct (three_passes fs registry) as [r|] eqn:Hp; [|discriminate].
  injection Hb as ->.
  assert (Hfilter : forall p, List.find p registry = Some b ->
            List.find p (matching registry language) = Some b)
    by (intros p; by apply find_filter_Some).
  assert (Hnone : forall p, List.find p registry = None ->
            List.find p (matching registry language) = None)
    by (intros p; apply find_filter_None).
  assert (Hpasses : three_passes fs (matching registry language) = Some b).
  { unfold three_passes in *.
    destruct (List.find (both_exist fs) registry) as [a|] eqn:Ha.
    { injection Hp as ->. by rewrite (Hfilter _ Ha). }
    rewrite (Hnone _ Ha).
    destruct (List.find (either_exists fs) registry) as [o|] eqn:Ho.
    { injection Hp as ->. by rewrite (Hfilter _ Ho). }
    rewrite (Hnone _ Ho). by apply Hfilter. }
  rewrite value_GetBackend, (eqb_empty_false _ Hlang).
  destruct (matching registry language) as [|b1 [|b2 more]] eqn:Hmatching.
  - discriminate.
  - apply three_passes_elem, list_elem_of_singleton in Hpasses. by subst.
  - by rewrite value_autodetect, Hpasses.
Qed.

Lemma X7_witness_nodejs_hint :
  value (GetBackend sample_registry "")
        (directory ["package.json"; "yarn.lock"] ["*.py"]) = Returned sample_yarn /\
  value (GetBackend sample_registry "nodejs")
        (directory ["package.json"; "yarn.lock"] ["*.py"]) = Returned sample_yarn.
Proof.
  split; [reflexivity |].
  apply (X7_hint_consistent_with_autodetection
           (directory ["package.json"; "yarn.lock"] ["*.py"])
           sample_registry "nodejs" sample_yarn).
  - reflexivity.
  - discriminate.
  - reflexivity.
Defined.

(** ** Which probes a call makes, and how many *)

Section ProbeLog.

Variable fs : Filesystem.

Lemma probe_of_spec_and_lock (b : LanguageBackend) (pr : probe) :
  pr ∈ probes (spec_and_lock b) fs ->
  pr = ProbeExists (Specfile b) \/ pr = ProbeExists (Lockfile b).
Proof.
  rewrite probes_spec_and_lock. destruct (fs_exists fs (Specfile b));
    rewrite ?elem_of_cons, elem_of_nil; tauto.
Qed.

Lemma probe_of_spec_or_lock (b : LanguageBackend) (pr : probe) :
  pr ∈ probes (spec_or_lock b) fs ->
  pr = ProbeExists (Specfile b) \/ pr = ProbeExists (Lockfile b).
Proof.
  rewrite probes_spec_or_lock. destruct (fs_exists fs (Specfile b));
    rewrite ?elem_of_cons, elem_of_nil; tauto.
Qed.

(** Every probe of lines 101 to 123 asks about a backend of the working
    list, and a pattern is asked for only after the second loop found no
    specfile and no lockfile. *)
Lemma probes_autodetect_elem (working : list LanguageBackend) (language : string)
    (pr : probe) :
  pr ∈ probes (autodetect working language) fs ->
  (exists b, b ∈ working /\ probe_of b pr) /\
  (forall pattern, pr = ProbePatternExists pattern ->
     forall b, b ∈ working -> either_exists fs b = false).
Proof.
  rewrite probes_autodetect. intros [Hpr|Hpr]%elem_of_app.
  { apply probes_first_where_elem in Hpr as (b & Hb & Hpr).
    apply probe_of_spec_and_lock in Hpr. split.
    - exists b. unfold probe_of. tauto.
    - intros pattern ->. destruct Hpr; discriminate. }
  destruct (List.find (both_exist fs) working); [by apply elem_of_nil in Hpr |].
  apply elem_of_app in Hpr as [Hpr|Hpr].
  { apply probes_first_where_elem in Hpr as (b & Hb & Hpr).
    apply probe_of_spec_or_lock in Hpr. split.
    - exists b. unfold probe_of. tauto.
    - intros pattern ->. destruct Hpr; discriminate. }
  destruct (List.find (either_exists fs) working) eqn:Ho;
    [by apply elem_of_nil in Hpr |].
  apply probes_first_where_elem in Hpr as (b & Hb & Hpr).
  apply probes_some_pattern_elem in Hpr as (pattern & Hin & ->). split.
  - exists b. split; [done |]. right. right. by exists pattern.
  - intros _ _ b' Hb'. by apply (find_None_iff _ working).
Qed.

Lemma sum_list_with_plus {A : Type} (f g : A -> nat) (l : list A) :
  sum_list_with (fun x => f x + g x) l = sum_list_with f l + sum_list_with g l.
Proof. induction l as [|x l IH]; simpl; lia. Qed.

Lemma sum_list_with_le {A : Type} (f g : A -> nat) (l : list A) :
  (forall x, f x <= g x) -> sum_list_with f l <= sum_list_with g l.
Proof. intros Hle. induction l as [|x l IH]; simpl; [lia | specialize (Hle x); lia]. Qed.

Lemma sum_list_with_filter {A : Type} (f : A -> nat) (q : A -> bool) (l : list A) :
  sum_list_with f (List.filter q l) <= sum_list_with f l.
Proof. induction l as [|x l IH]; simpl; [lia |]. destruct (q x); simpl; lia. Qed.

Lemma probes_autodetect_length (working : list LanguageBackend) (language : string) :
  length (probes (autodetect working language) fs) <= probe_budget working.
Proof.
  rewrite probes_autodetect.
  pose proof (probes_first_where_length fs spec_and_lock working) as HA.
  pose proof (probes_first_where_length fs spec_or_lock working) as HB.
  pose proof (probes_first_where_length fs pattern_hit working) as HC.
  assert (HAB : sum_list_with (fun b => length (probes (spec_and_lock b) fs)) working
                + sum_list_with (fun b => length (probes (spec_or_lock b) fs)) working
                = sum_list_with (fun _ => 3) working).
  { rewrite <- sum_list_with_plus. induction working as [|b l IH]; [reflexivity |].
    cbn [sum_list_with]. rewrite probes_spec_lock_three, IH; [lia | | |].
    all: apply probes_first_where_length. }
  assert (HP : sum_list_with (fun b => length (probes (pattern_hit b) fs)) working
               <= sum_list_with (fun b => length (FilenamePatterns b)) working).
  { apply sum_list_with_le. intros b. apply probes_some_pattern_length. }
  unfold probe_budget. rewrite sum_list_with_plus.
  assert (Hlen : length
            (probes (first_where spec_and_lock working) fs
             ++ match List.find (both_exist fs) working with
                | Some _ => []
                | None =>
                    probes (first_where spec_or_lock working) fs
                    ++ match List.find (either_exists fs) working with
                       | Some _ => []
                       | None => probes (first_where pattern_hit working) fs
                       end
                end)
          <= length (probes (first_where spec_and_lock working) fs)
             + length (probes (first_where spec_or_lock working) fs)
             + length (probes (first_where pattern_hit working) fs)).
  { rewrite length_app.
    destruct (List.find (both_exist fs) working); simpl; [lia |].
    rewrite length_app.
    destruct (List.find (either_exists fs) working); simpl; lia. }
  lia.
Qed.

End ProbeLog.

(** X8: a call asks the filesystem only about the backends among which it
    chooses: every probe it makes is for the specfile, the lockfile or a
    pattern of a backend of the registry, and with a hint, of a backend that
    the hint matches. *)
Theorem X8_probes_only_candidates
    (fs : Filesystem) (registry : list LanguageBackend) (language : string)
    (pr : probe) :
  pr ∈ probes (GetBackend registry language) fs ->
  exists b, candidate registry language b /\ probe_of b pr.
Proof.
  rewrite probes_GetBackend.
  destruct (working_list registry language) as [working|] eqn:Hw;
    [|by intros ?%elem_of_nil].
  intros [(b & Hb & Hpr) _]%probes_autodetect_elem.
  exists b. split; [|done]. by apply (candidate_working registry working).
Qed.

Lemma X8_witness_hint_narrows_probes :
  ProbeExists "yarn.lock"
    ∈ probes (GetBackend sample_registry "nodejs")
             (directory ["pyproject.toml"; "poetry.lock"] []) /\
  exists b, candidate sample_registry "nodejs" b /\
            probe_of b (ProbeExists "yarn.lock").
Proof.
  assert (Hin : ProbeExists "yarn.lock"
                  ∈ probes (GetBackend sample_registry "nodejs")
                           (directory ["pyproject.toml"; "poetry.lock"] [])).
  { apply list_elem_of_In. vm_compute. intuition. }
  split; [exact Hin |].
  exact (X8_probes_only_candidates _ sample_registry "nodejs" _ Hin).
Defined.

(** X9: patterns are the last resort: a call asks whether a pattern has a
    match only when none of the backends among which it chooses has an
    existing specfile or an existing lockfile. *)
Theorem X9_pattern_probe_last_resort
    (fs : Filesystem) (registry : list LanguageBackend) (language pattern : string) :
  ProbePatternExists pattern ∈ probes (GetBackend registry language) fs ->
  forall b, candidate registry language b ->
    fs_exists fs (Specfile b) = false /\ fs_exists fs (Lockfile b) = false.
Proof.
  rewrite probes_GetBackend.
  destruct (working_list registry language) as [working|] eqn:Hw;
    [|by intros ?%elem_of_nil].
  intros [_ Hlast]%probes_autodetect_elem b Hb.
  apply orb_false_iff. apply (Hlast pattern eq_refl).
  by apply (candidate_working registry working language).
Qed.

Lemma X9_witness_python_file_only :
  ProbePatternExists "*.py"
    ∈ probes (GetBackend sample_registry "") (directory ["main.py"] ["*.py"]) /\
  fs_exists (directory ["main.py"] ["*.py"]) (Specfile sample_bundler) = false /\
  fs_exists (directory ["main.py"] ["*.py"]) (Lockfile sample_bundler) = false.
Proof.
  assert (Hin : ProbePatternExists "*.py"
                  ∈ probes (GetBackend sample_registry "")
                           (directory ["main.py"] ["*.py"])).
  { apply list_elem_of_In. vm_compute. intuition. }
  split; [exact Hin |].
  apply (X9_pattern_probe_last_resort _ sample_registry "" "*.py" Hin sample_bundler).
  split; [unfold sample_registry; repeat constructor | by left].
Defined.

Section ProbeCounts.

Variable fs : Filesystem.
Variable kind : probe -> bool.

Local Abbreviation count log := (length (List.filter kind log)).

Lemma count_app (log1 log2 : list probe) :
  count (log1 ++ log2) = count log1 + count log2.
Proof. by rewrite List.filter_app, length_app. Qed.

Lemma count_first_where (cond : LanguageBackend -> Probing bool)
    (backends : list LanguageBackend) :
  count (probes (first_where cond backends) fs)
  <= sum_list_with (fun b => count (probes (cond b) fs)) backends.
Proof.
  induction backends as [|b backends IH]; [reflexivity |].
  cbn [first_where sum_list_with]. rewrite probes_bind, count_app.
  destruct (value (cond b) fs); [rewrite probes_ret; simpl; lia | lia].
Qed.

Lemma count_autodetect (working : list LanguageBackend) (language : string) :
  count (probes (autodetect working language) fs)
  <= sum_list_with (fun b => count (probes (spec_and_lock b) fs)
                             + count (probes (spec_or_lock b) fs)) working
     + sum_list_with (fun b => count (probes (pattern_hit b) fs)) working.
Proof.
  rewrite probes_autodetect, sum_list_with_plus, count_app.
  pose proof (count_first_where spec_and_lock working).
  pose proof (count_first_where spec_or_lock working).
  pose proof (count_first_where pattern_hit working).
  destruct (List.find (both_exist fs) working); [simpl; lia |].
  rewrite count_app.
  destruct (List.find (either_exists fs) working); simpl; lia.
Qed.

End ProbeCounts.

Section ProbeKinds.

Variable fs : Filesystem.

Lemma exists_calls_spec_lock (b : LanguageBackend) :
  exists_calls (probes (spec_and_lock b) fs)
  + exists_calls (probes (spec_or_lock b) fs) = 3.
Proof.
  rewrite probes_spec_and_lock, probes_spec_or_lock.
  by destruct (fs_exists fs (Specfile b)).
Qed.

Lemma pattern_calls_spec_lock (b : LanguageBackend) :
  pattern_calls (probes (spec_and_lock b) fs)
  + pattern_calls (probes (spec_or_lock b) fs) = 0.
Proof.
  rewrite probes_spec_and_lock, probes_spec_or_lock.
  by destruct (fs_exists fs (Specfile b)).
Qed.

Lemma calls_some_pattern (patterns : list string) :
  exists_calls (probes (some_pattern patterns) fs) = 0 /\
  pattern_calls (probes (some_pattern patterns) fs) <= length patterns.
Proof.
  unfold exists_calls, pattern_calls.
  induction patterns as [|p patterns [IHe IHp]]; [split; reflexivity |].
  cbn [some_pattern length]. rewrite probes_bind, !count_app.
  unfold util.PatternExists, value at 1 2, probes at 1 3. cbn [fst snd].
  destruct (fs_pattern_exists fs p).
  - rewrite probes_ret. simpl. lia.
  - simpl. lia.
Qed.

Lemma sum_list_with_const {A : Type} (c : nat) (l : list A) :
  sum_list_with (fun _ => c) l = c * length l.
Proof. induction l as [|x l IH]; simpl; lia. Qed.

Lemma sum_list_with_ext {A : Type} (f g : A -> nat) (l : list A) :
  (forall x, f x = g x) -> sum_list_with f l = sum_list_with g l.
Proof. intros Heq. induction l as [|x l IH]; simpl; [done | by rewrite Heq, IH]. Qed.

(** Lines 101 to 119 call [util.Exists] at most three times for each backend
    of the working list, and [util.PatternExists] at most once for each of
    its patterns. *)
Lemma calls_autodetect (working : list LanguageBackend) (language : string) :
  exists_calls (probes (autodetect working language) fs) <= 3 * length working /\
  pattern_calls (probes (autodetect working language) fs)
  <= sum_list_with (fun b => length (FilenamePatterns b)) working.
Proof.
  assert (He : sum_list_with
                 (fun b => length (List.filter is_exists_probe
                                     (probes (spec_and_lock b) fs))
                           + length (List.filter is_exists_probe
                                       (probes (spec_or_lock b) fs))) working
               = 3 * length working).
  { rewrite <- sum_list_with_const. apply sum_list_with_ext.
    exact exists_calls_spec_lock. }
  assert (Hp : sum_list_with
                 (fun b => length (List.filter is_pattern_probe
                                     (probes (spec_and_lock b) fs))
                           + length (List.filter is_pattern_probe
                                       (probes (spec_or_lock b) fs))) working
               = 0).
  { rewrite <- (Nat.mul_0_l (length working)), <- sum_list_with_const.
    apply sum_list_with_ext. exact pattern_calls_spec_lock. }
  assert (Hce : sum_list_with
                  (fun b => length (List.filter is_exists_probe
                                      (probes (pattern_hit b) fs))) working
                = 0).
  { rewrite <- (Nat.mul_0_l (length working)), <- sum_list_with_const.
    apply sum_list_with_ext.
    exact (fun b => proj1 (calls_some_pattern (FilenamePatterns b))). }
  assert (Hcp : sum_list_with
                  (fun b => length (List.filter is_pattern_probe
                                      (probes (pattern_hit b) fs))) working
                <= sum_list_with (fun b => length (FilenamePatterns b)) working).
  { apply sum_list_with_le.
    exact (fun b => proj2 (calls_some_pattern (FilenamePatterns b))). }
  pose proof (count_autodetect fs is_exists_probe working language).
  pose proof (count_autodetect fs is_pattern_probe working language).
  unfold exists_calls, pattern_calls. split; lia.
Qed.

End ProbeKinds.

(** X10: a call makes at most three calls of [util.Exists] for each backend
    of the registry, and at most one call of [util.PatternExists] for each
    pattern of each backend of the registry; so its probes are at most three
    and one for each pattern, for each backend. *)
Theorem X10_probe_budget
    (fs : Filesystem) (registry : list LanguageBackend) (language : string) :
  exists_calls (probes (GetBackend registry language) fs) <= 3 * length registry /\
  pattern_calls (probes (GetBackend registry language) fs)
  <= sum_list_with (fun b => length (FilenamePatterns b)) registry /\
  length (probes (GetBackend registry language) fs) <= probe_budget registry.
Proof.
  rewrite probes_GetBackend. unfold working_list.
  destruct (String.eqb language "").
  { split; [|split]; [apply calls_autodetect | apply calls_autodetect
                      | apply probes_autodetect_length]. }
  destruct (matching registry language) as [|b1 [|b2 more]] eqn:Hm;
    try (unfold exists_calls, pattern_calls; simpl; lia).
  destruct (calls_autodetect fs (b1 :: b2 :: more) language) as [He Hp].
  pose proof (probes_autodetect_length fs (b1 :: b2 :: more) language) as Hl.
  assert (Hlen : length (b1 :: b2 :: more) <= length registry)
    by (rewrite <- Hm; apply List.filter_length_le).
  assert (Hpat : sum_list_with (fun b => length (FilenamePatterns b))
                               (b1 :: b2 :: more)
                 <= sum_list_with (fun b => length (FilenamePatterns b)) registry)
    by (rewrite <- Hm; apply sum_list_with_filter).
  assert (Hbudget : probe_budget (b1 :: b2 :: more) <= probe_budget registry)
    by (rewrite <- Hm; apply sum_list_with_filter).
  split; [|split]; [| by etransitivity | by etransitivity].
  etransitivity; [exact He |]. apply Nat.mul_le_mono_l, Hlen.
Qed.

(** Both bounds are reached when nothing is found. *)
Example probe_calls_reached :
  exists_calls (probes (GetBackend sample_registry "") empty_directory)
  = 3 * length sample_registry /\
  pattern_calls (probes (GetBackend sample_registry "") empty_directory)
  = sum_list_with (fun b => length (FilenamePatterns b)) sample_registry.
Proof. split; reflexivity. Qed.

(** The budget is reached when nothing is found. *)
Example probe_budget_reached :
  length (probes (GetBackend sample_registry "") empty_directory)
  = probe_budget sample_registry.
Proof. reflexivity. Qed.

(** ** Files that no candidate names *)

Section Locality.

Variables fs1 fs2 : Filesystem.

Lemma agree_spec_and_lock (b : LanguageBackend) :
  agree_on fs1 fs2 b -> same_run_in fs1 fs2 (spec_and_lock b).
Proof.
  intros (Hs & Hl & _). unfold same_run_in, spec_and_lock, bind, util.Exists.
  simpl. rewrite Hs.
  destruct (fs_exists fs2 (Specfile b)); simpl; by rewrite ?Hl.
Qed.

Lemma agree_spec_or_lock (b : LanguageBackend) :
  agree_on fs1 fs2 b -> same_run_in fs1 fs2 (spec_or_lock b).
Proof.
  intros (Hs & Hl & _). unfold same_run_in, spec_or_lock, bind, util.Exists.
  simpl. rewrite Hs.
  destruct (fs_exists fs2 (Specfile b)); simpl; by rewrite ?Hl.
Qed.

Lemma agree_some_pattern (patterns : list string) :
  (forall pattern, pattern ∈ patterns ->
     fs_pattern_exists fs1 pattern = fs_pattern_exists fs2 pattern) ->
  same_run_in fs1 fs2 (some_pattern patterns).
Proof.
  induction patterns as [|p patterns IH]; intros Hagree; [reflexivity |].
  cbn [some_pattern]. apply same_run_bind.
  - unfold same_run_in, util.PatternExists. rewrite (Hagree p); [done | by left].
  - intros [|]; [reflexivity |]. apply IH. intros pattern Hin.
    apply Hagree. by right.
Qed.

Lemma agree_pattern_hit (b : LanguageBackend) :
  agree_on fs1 fs2 b -> same_run_in fs1 fs2 (pattern_hit b).
Proof. intros (_ & _ & Hp). by apply agree_some_pattern. Qed.

Lemma agree_first_where (cond : LanguageBackend -> Probing bool)
    (backends : list LanguageBackend) :
  (forall b, b ∈ backends -> same_run_in fs1 fs2 (cond b)) ->
  same_run_in fs1 fs2 (first_where cond backends).
Proof.
  induction backends as [|b backends IH]; intros Hcond; [reflexivity |].
  cbn [first_where]. apply same_run_bind; [apply Hcond; by left |].
  intros [|]; [reflexivity |]. apply IH. intros b' Hb'. apply Hcond. by right.
Qed.

Lemma agree_autodetect (backends : list LanguageBackend) (language : string) :
  (forall b, b ∈ backends -> agree_on fs1 fs2 b) ->
  same_run_in fs1 fs2 (autodetect backends language).
Proof.
  intros Hagree. unfold autodetect.
  apply same_run_bind.
  { apply agree_first_where. intros b Hb. by apply agree_spec_and_lock, Hagree. }
  intros [b|]; [reflexivity |].
  apply same_run_bind.
  { apply agree_first_where. intros b Hb. by apply agree_spec_or_lock, Hagree. }
  intros [b|]; [reflexivity |].
  apply same_run_bind.
  { apply agree_first_where. intros b Hb. by apply agree_pattern_hit, Hagree. }
  intros [b|]; [reflexivity |].
  destruct (String.eqb language ""); [reflexivity |].
  by destruct backends.
Qed.

End Locality.

(** X11: only the files that the candidates name count: two project
    directories that answer alike on the specfile, the lockfile and the
    patterns of every backend among which the call chooses give the same
    result after the same probes, whatever else they hold. *)
Theorem X11_only_candidate_files_count
    (fs1 fs2 : Filesystem) (registry : list LanguageBackend) (language : string) :
  (forall b, candidate registry language b -> agree_on fs1 fs2 b) ->
  GetBackend registry language fs1 = GetBackend registry language fs2.
Proof.
  intros Hagree.
  destruct (working_list registry language) as [working|] eqn:Hw.
  - assert (Hsame : same_run_in fs1 fs2 (autodetect working language)).
    { apply agree_autodetect. intros b Hb.
      by apply Hagree, (candidate_working registry working). }
    revert Hw. unfold working_list, GetBackend.
    rewrite filter_backends_matching.
    destruct (String.eqb language ""); simpl; [by intros [= ->] |].
    destruct (matching registry language) as [|b1 [|b2 more]]; try discriminate.
    by intros [= <-].
  - revert Hw. unfold working_list, GetBackend.
    rewrite filter_backends_matching.
    destruct (String.eqb language ""); simpl; [discriminate |].
    by destruct (matching registry language) as [|b1 [|b2 more]].
Qed.

Lemma X11_witness_unrelated_files :
  let fs1 := directory ["package.json"; "yarn.lock"] ["*.js"] in
  let fs2 := directory ["package.json"; "yarn.lock"; "Gemfile"; "Gemfile.lock";
                        "README.md"] ["*.js"; "*.rb"; "*.md"] in
  GetBackend sample_registry "nodejs" fs1 = GetBackend sample_registry "nodejs" fs2 /\
  value (GetBackend sample_registry "nodejs") fs2 = Returned sample_yarn.
Proof.
  cbv zeta. split; [|reflexivity].
  apply (X11_only_candidate_files_count _ _ sample_registry "nodejs").
  intros b Hb%candidate_matching; [|discriminate].
  change (b ∈ [sample_npm; sample_yarn]) in Hb.
  rewrite !elem_of_cons, elem_of_nil in Hb.
  destruct Hb as [->|[->|[]]].
  - split; [reflexivity | split; [reflexivity |]].
    intros pattern Hp. simpl in Hp. rewrite !elem_of_cons, elem_of_nil in Hp.
    destruct Hp as [->|[->|[]]]; reflexivity.
  - split; [reflexivity | split; [reflexivity |]].
    intros pattern Hp. simpl in Hp. rewrite !elem_of_cons, elem_of_nil in Hp.
    destruct Hp as [->|[->|[]]]; reflexivity.
Defined.

(** ** [GetBackendNames] *)

Section Listing.

Variable IsAvailable : LanguageBackend -> bool.

Lemma GetBackendNames_from (backendNames : list BackendInfo.t)
    (languageBackends : list LanguageBackend) :
  foldl (fun backendNames b =>
           backendNames ++ [BackendInfo.mk (Name b) (IsAvailable b)])
        backendNames languageBackends
  = backendNames
    ++ ((fun b => BackendInfo.mk (Name b) (IsAvailable b)) <$> languageBackends).
Proof.
  revert backendNames.
  induction languageBackends as [|b l IH]; intros backendNames; simpl.
  - by rewrite app_nil_r.
  - by rewrite IH, <- app_assoc.
Qed.

Lemma GetBackendNames_fmap (languageBackends : list LanguageBackend) :
  GetBackendNames IsAvailable languageBackends
  = (fun b => BackendInfo.mk (Name b) (IsAvailable b)) <$> languageBackends.
Proof. unfold GetBackendNames. by rewrite GetBackendNames_from. Qed.

End Listing.

(** X12: the listing has one entry for each backend of the registry, in
    registry order: its names are the names of the backends, its
    availability flags are the answers of their availability checks. *)
Theorem X12_listing_in_registry_order
    (IsAvailable : LanguageBackend -> bool) (registry : list LanguageBackend) :
  BackendInfo.Name <$> GetBackendNames IsAvailable registry = Name <$> registry /\
  BackendInfo.Available <$> GetBackendNames IsAvailable registry
  = IsAvailable <$> registry.
Proof.
  rewrite GetBackendNames_fmap, <- !list_fmap_compose. split; reflexivity.
Qed.

(** X13: every name of the listing is a known language: with a non-empty
    name of the listing as the hint, a call over the same registry does not
    fail, and the backend it returns is matched by that name. *)
Theorem X13_listed_name_is_known_language
    (IsAvailable : LanguageBackend -> bool) (fs : Filesystem)
    (registry : list LanguageBackend) (info : BackendInfo.t) :
  info ∈ GetBackendNames IsAvailable registry ->
  BackendInfo.Name info <> "" ->
  exists b, value (GetBackend registry (BackendInfo.Name info)) fs = Returned b /\
            b ∈ registry /\
            matchesLanguage b (BackendInfo.Name info) = true.
Proof.
  rewrite GetBackendNames_fmap. intros (b0 & -> & Hb0)%list_elem_of_fmap. simpl.
  intros Hname.
  destruct (GetBackend_hinted fs registry (Name b0) Hname) as (b & Hb & Hin).
  - intros Hnil. rewrite matching_nil in Hnil. specialize (Hnil b0 Hb0).
    assert (Hself : matchesLanguage b0 (Name b0) = true)
      by (apply matchesLanguage_true; left; by intros part Hpart).
    by rewrite Hself in Hnil.
  - exists b. split; [exact Hb |]. by apply elem_of_matching in Hin.
Qed.

Lemma X13_witness_listed_pip :
  BackendInfo.mk "python3-pip" true
    ∈ GetBackendNames (fun _ => true) sample_registry /\
  exists b, value (GetBackend sample_registry "python3-pip") empty_directory
            = Returned b /\
            b ∈ sample_registry /\
            matchesLanguage b "python3-pip" = true.
Proof.
  assert (Hin : BackendInfo.mk "python3-pip" true
                  ∈ GetBackendNames (fun _ => true) sample_registry).
  { apply list_elem_of_In. vm_compute. intuition. }
  split; [exact Hin |].
  apply (X13_listed_name_is_known_language (fun _ => true) empty_directory
           sample_registry (BackendInfo.mk "python3-pip" true) Hin).
  discriminate.
Defined.

(** X14: the backend that a call returns is in the listing of the same
    registry, under its name and with the answer of its availability
    check. *)
Theorem X14_returned_backend_is_listed
    (IsAvailable : LanguageBackend -> bool) (fs : Filesystem)
    (registry : list LanguageBackend) (language : string) (b : LanguageBackend) :
  value (GetBackend registry language) fs = Returned b ->
  BackendInfo.mk (Name b) (IsAvailable b) ∈ GetBackendNames IsAvailable registry.
Proof.
  intros Hb. rewrite GetBackendNames_fmap.
  apply (list_elem_of_fmap_2 (fun b => BackendInfo.mk (Name b) (IsAvailable b))).
  by apply (GetBackend_Returned_elem fs registry language).
Qed.

Lemma X14_witness_bundler_listed :
  value (GetBackend sample_registry "ruby") empty_directory = Returned sample_bundler /\
  BackendInfo.mk "ruby-bundler" false
    ∈ GetBackendNames (fun _ => false) sample_registry.
Proof.
  split; [reflexivity |].
  apply (X14_returned_backend_is_listed (fun _ => false) empty_directory
           sample_registry "ruby" sample_bundler).
  reflexivity.
Defined.

(** ** [SetupAll] *)

Section SetupFacts.

Variable Setup : LanguageBackend -> option LanguageBackend.

(** The loop from index [length before] on, when the backends before that
    index are set up already. *)
Lemma SetupAll_from_spec (rest before : list LanguageBackend) :
  match SetupAll_from Setup (length rest) (length before) (before ++ rest) with
  | SetUp after =>
      exists rest', after = before ++ rest' /\
                    Forall2 (fun b b' => Setup b = Some b') rest rest'
  | SetupPanicked i =>
      exists k b, i = length before + k /\ rest !! k = Some b /\ Setup b = None /\
                  forall j b', j < k -> rest !! j = Some b' -> is_Some (Setup b')
  | SetupIndexOutOfRange _ => False
  end.
Proof.
  revert before. induction rest as [|b rest IH]; intros before.
  - simpl. exists []. split; [reflexivity | constructor].
  - cbn [length SetupAll_from].
    rewrite (list_lookup_middle before rest b (length before) eq_refl).
    destruct (Setup b) as [b'|] eqn:Hb.
    + replace (<[length before := b']> (before ++ b :: rest))
        with ((before ++ [b']) ++ rest).
      2:{ rewrite <- (Nat.add_0_r (length before)) at 1.
          rewrite insert_app_r. simpl. by rewrite <- app_assoc. }
      replace (S (length before)) with (length (before ++ [b']))
        by (rewrite length_app; simpl; lia).
      specialize (IH (before ++ [b'])).
      destruct (SetupAll_from Setup (length rest) (length (before ++ [b']))
                  ((before ++ [b']) ++ rest)) as [after|i|i]; [| |done].
      * destruct IH as (rest' & -> & Hrest). exists (b' :: rest').
        split; [by rewrite <- app_assoc | by constructor].
      * destruct IH as (k & bk & -> & Hk & Hnone & Hbefore).
        exists (S k), bk. split; [rewrite length_app; simpl; lia |].
        split; [done |]. split; [done |].
        intros [|j] b'' Hj Hlook; simpl in Hlook.
        -- injection Hlook as <-. by rewrite Hb.
        -- apply (Hbefore j); [lia | done].
    + exists 0, b. split; [lia |]. split; [done |]. split; [done |].
      intros j b' Hj. lia.
Qed.

End SetupFacts.

(** X15: [SetupAll] sets every backend up once, in place and in registry
    order, and stops at the first backend whose [Setup] panics: when it
    ends, the registry has the result of [Setup] at every index and so keeps
    its length; when it panics, it is at the first index whose backend
    [Setup] rejects; and its indexing is never out of range. *)
Theorem X15_SetupAll_outcome
    (Setup : LanguageBackend -> option LanguageBackend)
    (registry : list LanguageBackend) :
  match SetupAll Setup registry with
  | SetUp after =>
      length after = length registry /\
      forall i b, registry !! i = Some b -> after !! i = Setup b
  | SetupPanicked i =>
      exists b, registry !! i = Some b /\ Setup b = None /\
                forall j b', j < i -> registry !! j = Some b' -> is_Some (Setup b')
  | SetupIndexOutOfRange _ => False
  end.
Proof.
  unfold SetupAll. pose proof (SetupAll_from_spec Setup registry []) as Hspec.
  simpl in Hspec.
  destruct (SetupAll_from Setup (length registry) 0 registry) as [after|i|i];
    [| |done].
  - destruct Hspec as (rest' & -> & Hall). simpl. split.
    + symmetry. by apply Forall2_length in Hall.
    + intros i b Hi.
      destruct (Forall2_lookup_l _ _ _ _ _ Hall Hi) as (b' & Hb' & Hsetup).
      by rewrite Hb', Hsetup.
  - destruct Hspec as (k & b & -> & Hk & Hnone & Hbefore). simpl. by exists b.
Qed.

Example SetupAll_stops_at_first_panic :
  SetupAll (fun b => if String.eqb (Name b) "" then None else Some b)
           [sample_npm; mkBackend "" "" "a" "b" []; mkBackend "" "" "c" "d" []]
  = SetupPanicked 1.
Proof. reflexivity. Qed.

Example SetupAll_fills_defaults :
  SetupAll (fun b => Some (mkBackend (Name b) (Name b) (Specfile b) (Lockfile b)
                                     (FilenamePatterns b)))
           [sample_npm; sample_bundler]
  = SetUp [mkBackend "nodejs-npm" "nodejs-npm" "package.json" "package-lock.json"
                     ["*.js"; "*.ts"];
           mkBackend "ruby-bundler" "ruby-bundler" "Gemfile" "Gemfile.lock" ["*.rb"]].
Proof. reflexivity. Qed.

(** ** When the filesystem is consulted *)

Lemma probes_autodetect_nil (fs : Filesystem) (working : list LanguageBackend)
    (language : string) :
  probes (autodetect working language) fs = [] <-> working = [].
Proof.
  rewrite probes_autodetect. split.
  - destruct working as [|b more]; [done |].
    cbn [first_where]. rewrite probes_bind, probes_spec_and_lock. discriminate.
  - by intros ->.
Qed.

(** X16: a call consults the filesystem exactly when it has to choose: it
    makes no probe at all when the registry is empty, or when the hint is
    not empty and matches no backend or just one; in every other case it
    makes at least one probe. *)
Theorem X16_no_probe_without_choice
    (fs : Filesystem) (registry : list LanguageBackend) (language : string) :
  probes (GetBackend registry language) fs = []
  <-> registry = [] \/ (language <> "" /\ length (matching registry language) <= 1).
Proof.
  rewrite probes_GetBackend. unfold working_list.
  destruct (String.eqb_spec language "") as [->|Hlang].
  - rewrite probes_autodetect_nil. split; [by left |]. by intros [?|[? _]].
  - destruct (matching registry language) as [|b1 [|b2 more]] eqn:Hm.
    + split; [|done]. intros _. right. split; [done | simpl; lia].
    + split; [|done]. intros _. right. split; [done | simpl; lia].
    + rewrite probes_autodetect_nil. split; [discriminate |].
      intros [->|[_ Hlen]]; [discriminate Hm | simpl in Hlen; lia].
Qed.
